(** * AIngest: the metadata-only bundler

    A shallow embedding of [internal/bundler/bundler.go] and of the
    [schema] package it fills in, together with the part of Go's
    [path/filepath] the bundler is written against ([Ext], [Join], [Rel]
    and [Walk]).

    Conventions.
    - Go strings are byte strings: [string] of the standard library.
    - [int] and [int64] are [Z]; the only arithmetic the bundler performs
      is the [int64] accumulation of [totalSize], whose two's-complement
      wrap-around is written out ([int64_add]).
    - [time.Time] is an abstract instant, a [Z].
    - A nil map, a nil pointer: [None].
    - The filesystem under the root is a value of type [node]: what
      [os.Lstat] and [readDirNames] answer for every path the walk can
      reach.  The closure passed to [filepath.Walk] mutates the captured
      slice [files]; here the slice is threaded through the walk. *)

From Stdlib Require Import ZArith List String Ascii Bool Lia QArith.
Set Warnings "-register-all".
Import ListNotations.
Local Open Scope string_scope.
Local Open Scope Z_scope.

(** ** package schema *)

Module schema.

(** [map[string]any] values; the bundler never builds one. *)
Inductive any : Type :=
  | AnyString (s : string)
  | AnyInt (z : Z)
  | AnyBool (b : bool).

Record SectionData : Type := {
    ID : string;
    Type_ : string;
    Heading : string;
    SectionLanguage : string;
    Content : string;
    Items : list string;
    Table : list (list string);
    Attributes : option (list (string * string))
  }.

Record DocumentData : Type := {
    Title : string;
    DocSummary : string;
    Sections : list SectionData
  }.

Record FileBundle : Type := {
    Path : string;
    RelativePath : string;
    Name : string;
    Extension : string;
    MIMEType : string;
    FileType : string;
    Language : string;
    Encoding : string;
    SizeBytes : Z;
    Hash : string;
    CreatedAt : Z;
    ModifiedAt : Z;
    TokenCount : Z;
    Metadata : option (list (string * string));
    Document : option DocumentData
  }.

Record SummaryInfo : Type := {
    TotalFiles : Z;
    TotalTokens : Z;
    TotalSize : Z;
    AvgTokens : Q;
    LargestFile : string;
    LargestTokens : Z;
    EstimatedModel : string
  }.

Record Bundle : Type := {
    Version : string;
    BundleCreatedAt : Z;
    SourceDir : string;
    Description : string;
    Files : list FileBundle;
    Summary : option SummaryInfo;
    Generator : string;
    TokenSettings : option (list (string * any))
  }.

End schema.

(** ** int64 arithmetic *)

Definition int64_min : Z := - 2 ^ 63.
Definition int64_max : Z := 2 ^ 63 - 1.

(** The 64-bit two's-complement value of an integer. *)
Definition wrap64 (z : Z) : Z := (z + 2 ^ 63) mod 2 ^ 64 - 2 ^ 63.

(** Go's [+] on [int64]: silent wrap-around. *)
Definition int64_add (a b : Z) : Z := wrap64 (a + b).

(** ** path/filepath, on a Unix host *)

Module filepath.

Definition Separator : ascii := "/"%char.
Definition dot : ascii := "."%char.

(** The loop of [Ext]: [i] runs from the last byte down, [c] is
      [path[i]] and [c :: suffix] is [path[i:]]. *)
Fixpoint ext_scan (before : list ascii) (suffix : list ascii) : string :=
    match before with
    | [] => ""
    | c :: more =>
        if Ascii.eqb c Separator then ""
        else if Ascii.eqb c dot then string_of_list_ascii (c :: suffix)
        else ext_scan more (c :: suffix)
    end.

(** [Ext]: the suffix beginning at the final dot in the final element
      of [path]; empty if there is no dot. *)
Definition Ext (path : string) : string :=
    ext_scan (rev (list_ascii_of_string path)) [].

(** [Join] of the path of a directory being walked and the name of one of
      its entries.  Go's [Join] drops empty elements and cleans the result.
      [Walk] only joins a path it is visiting with a name [readDirNames]
      returned (not empty, neither [.] nor [..], without separator); when
      the root is given in clean form, and is neither [.] nor [/], cleaning
      changes nothing and the result is the plain concatenation below.  For
      another spelling of the root Go records the cleaned spelling of the
      same path: which entries are visited, the comparison of a path with
      the root path and the relative paths are not affected. *)
Definition Join (path name : string) : string := path ++ "/" ++ name.

(** [Rel], on the two shapes of target [Walk] hands to the callback: the
      base path itself, for which Go answers [.], and a path [Join] built
      below it, for which Go answers the entry names that were joined.
      (Go cleans both paths first and computes a path through [..] for a
      target elsewhere; the bundler discards the error result and never
      reaches that case, which is left empty here.) *)
Definition Rel (basepath targpath : string) : string :=
    if String.eqb targpath basepath then "."
    else if String.prefix (basepath ++ "/") targpath
         then substring (S (String.length basepath))
                        (String.length targpath - S (String.length basepath))
                        targpath
         else "".

(** The errors a [WalkFunc] can return: the two sentinels, an error of
      the operating system, and the run-time panic of a nil [FileInfo]
      dereference. *)
Inductive error : Type :=
  | SkipDir
  | SkipAll
  | OsError (msg : string)
  | NilFileInfo.

(** [os.FileInfo], as far as the bundler reads it. *)
Record FileInfo : Type := {
    InfoName : string;
    Size : Z;
    ModTime : Z;
    IsDir : bool
  }.

(** What the filesystem answers below a path.
      - [Broken]: [os.Lstat] on this entry fails with [msg].
      - [File]: anything that is not a directory (a regular file, a
        symbolic link, a device ...).
      - [Dir]: a directory, with the result of [readDirNames]: an error,
        or its entries in the order returned (sorted by name). *)
Inductive node : Type :=
  | Broken (name msg : string)
  | File (name : string) (size modTime : Z)
  | Dir (name : string) (size modTime : Z) (listing : string + list node).

Definition node_name (n : node) : string :=
    match n with
    | Broken name _ => name
    | File name _ _ => name
    | Dir name _ _ _ => name
    end.

Definition node_isDir (n : node) : bool :=
    match n with
    | Dir _ _ _ _ => true
    | _ => false
    end.

(** The result of a successful [os.Lstat]; nil for a [Broken] entry. *)
Definition lstat (n : node) : option FileInfo :=
    match n with
    | Broken _ _ => None
    | File name size mt =>
        Some {| InfoName := name; Size := size; ModTime := mt; IsDir := false |}
    | Dir name size mt _ =>
        Some {| InfoName := name; Size := size; ModTime := mt; IsDir := true |}
    end.

Section Walk.

Context {St : Type}.

(** [WalkFunc], with the state its closure captures. *)
Definition WalkFunc : Type :=
      string -> option FileInfo -> option error -> St -> St * option error.

Variable walkFn : WalkFunc.

(** The [for _, name := range names] loop of [walk].  [visit] is what
        the loop does with one entry after joining its name: [lstat], then
        either the callback on the error or the recursive [walk]. *)
Section Names.

Variable visit : string -> node -> St -> St * option error.
Variable path : string.

Fixpoint walkNames (names : list node) (s : St) : St * option error :=
        match names with
        | [] => (s, None)
        | c :: rest =>
            let filename := Join path (node_name c) in
            let '(s', err) := visit filename c s in
            match c, err with
            | _, None => walkNames rest s'
            | Broken _ _, Some SkipDir => walkNames rest s'
            | Dir _ _ _ _, Some SkipDir => walkNames rest s'
            | _, Some e => (s', Some e)
            end
        end.

End Names.

(** [lstat] followed by [walk]: on an [Lstat] error the callback is
        called with a nil info and the error; a non-directory is handed to
        the callback; for a directory [readDirNames] runs first, the
        callback sees its error, and the entries are walked only when both
        the listing and the callback succeeded. *)
Fixpoint visit (path : string) (n : node) (s : St) : St * option error :=
      match n with
      | Broken _ msg => walkFn path None (Some (OsError msg)) s
      | File _ _ _ => walkFn path (lstat n) None s
      | Dir _ _ _ listing =>
          let err := match listing with
                     | inl msg => Some (OsError msg)
                     | inr _ => None
                     end in
          let '(s1, err1) := walkFn path (lstat n) err s in
          match listing, err1 with
          | inr names, None => walkNames visit path names s1
          | _, _ => (s1, err1)
          end
      end.

(** [Walk]: [SkipDir] and [SkipAll] coming back from the root are not
        errors. *)
Definition Walk (root : string) (fs : node) (s : St) : St * option error :=
      let '(s', err) := visit root fs s in
      match err with
      | Some SkipDir | Some SkipAll => (s', None)
      | _ => (s', err)
      end.

End Walk.

End filepath.

(** ** package bundler *)

Module bundler.

Import schema filepath.

Record Bundler : Type := {
    RootPath : string;
    Recursive : bool
  }.

Definition NewBundler (root : string) (recursive : bool) : Bundler :=
    {| RootPath := root; Recursive := recursive |}.

(** [detectMIME]: a simple MIME guess based on extension. *)
Definition detectMIME (path : string) : string :=
    let ext := Ext path in
    if String.eqb ext ".md" then "text/markdown"
    else if String.eqb ext ".txt" then "text/plain"
    else if String.eqb ext ".json" then "application/json"
    else if String.eqb ext ".go" then "text/x-go"
    else if String.eqb ext ".rtf" then "application/rtf"
    else "application/octet-stream".

Definition ext_in (ext : string) (cases : list string) : bool :=
    existsb (String.eqb ext) cases.

(** [classifyType]: a broad category for a file. *)
Definition classifyType (ext : string) : string :=
    if ext_in ext [".go"; ".js"; ".ts"; ".py"; ".cs"; ".java"] then "code"
    else if ext_in ext [".json"; ".yaml"; ".yml"; ".toml"; ".plist"; ".csv"]
         then "data"
    else if ext_in ext [".md"; ".txt"; ".rtf"] then "text"
    else "binary".

(** The [schema.FileBundle] literal of the walk callback; the fields it
      does not mention keep their zero values. *)
Definition fileRecord (b : Bundler) (path : string) (info : FileInfo)
    : FileBundle :=
    {| Path := path;
       RelativePath := Rel (RootPath b) path;
       Name := InfoName info;
       Extension := Ext path;
       MIMEType := detectMIME path;
       FileType := classifyType (Ext path);
       Language := "";
       Encoding := "";
       SizeBytes := Size info;
       Hash := "";
       CreatedAt := ModTime info;
       ModifiedAt := ModTime info;
       TokenCount := 0;
       Metadata := None;
       Document := None |}.

(** The closure passed to [filepath.Walk]; its state is the captured
      slice [files]. *)
Definition walkFn (b : Bundler) : @WalkFunc (list FileBundle) :=
    fun path info err files =>
      match err with
      | Some e => (files, Some e)
      | None =>
          match info with
          | None => (files, Some NilFileInfo)
          | Some info =>
              if IsDir info then
                if negb (Recursive b) && negb (String.eqb path (RootPath b))
                then (files, Some SkipDir)
                else (files, None)
              else ((files ++ [fileRecord b path info])%list, None)
          end
      end.

(** The [for _, f := range files] loop accumulating [totalSize]. *)
Definition totalSize (files : list FileBundle) : Z :=
    fold_left (fun acc f => int64_add acc (SizeBytes f)) files 0.

(** The [schema.SummaryInfo] literal: two fields set, the others zero. *)
Definition buildSummary (files : list FileBundle) : SummaryInfo :=
    {| TotalFiles := Z.of_nat (List.length files);
       TotalTokens := 0;
       TotalSize := totalSize files;
       AvgTokens := 0%Q;
       LargestFile := "";
       LargestTokens := 0;
       EstimatedModel := "" |}.

(** [BuildBundle], given what the filesystem holds at [RootPath] and
      the instant [time.Now] returns. *)
Definition BuildBundle (b : Bundler) (fs : node) (now : Z)
    : error + Bundle :=
    let '(files, err) := Walk (walkFn b) (RootPath b) fs [] in
    match err with
    | Some e => inl e
    | None =>
        inr {| Version := "1.0";
               BundleCreatedAt := now;
               SourceDir := RootPath b;
               Files := files;
               Summary := Some (buildSummary files);
               Generator := "aingest v0.1.0";
               Description := "Generated bundle (metadata only)";
               TokenSettings := None |}
    end.

End bundler.

(** ** package cmd: the [run] command *)

Module cmd.

Import schema filepath bundler.

(** The flags of [run], with the defaults [init] registers. *)
Record Flags : Type := {
  outputFile : string;
  tokenMode : string;
  recursive : bool;
  format : string
}.

Definition defaultFlags : Flags :=
  {| outputFile := "bundle.json"; tokenMode := "fast";
     recursive := false; format := "json" |}.

Definition newline : string := String (ascii_of_nat 10) EmptyString.

(** [err.Error()]: the text of the two sentinels of [path/filepath], the
    message of an error of the operating system, the text of the nil
    dereference panic. *)
Definition Error (e : error) : string :=
  match e with
  | SkipDir => "skip this directory"
  | SkipAll => "skip everything and stop the walk"
  | OsError msg => msg
  | NilFileInfo => "runtime error: invalid memory address or nil pointer dereference"
  end.

(** What one invocation does that can be seen from outside: the bytes
    printed, the call of [os.WriteFile] made (name, data, permissions), and
    the status [os.Exit] was called with ([None] when [Run] returns). *)
Record Outcome : Type := {
  stdout : string;
  writeFile_call : option (string * string * Z);
  exit_status : option Z
}.

(** [fmt.Println] of a label and an error. *)
Definition Println2 (label : string) (err : string) : string :=
  label ++ " " ++ err ++ newline.

(** The [Run] function of [runCmd], for the single argument
    [cobra.ExactArgs(1)] lets through.  [MarshalIndent] is
    [json.MarshalIndent] with the indentation the command passes and
    [WriteFile] is [os.WriteFile]; both answer an error message on
    failure.  [0644] is 420. *)
Definition Run
           (MarshalIndent : Bundle -> string + string)
           (WriteFile : string -> string -> Z -> option string)
           (flags : Flags) (arg : string) (fs : node) (now : Z) : Outcome :=
  let root := arg in
  let started := "🧠 AIngest started on: " ++ root ++ newline in
  let b := NewBundler root (recursive flags) in
  match BuildBundle b fs now with
  | inl err =>
      {| stdout := started ++ Println2 "Error building bundle:" (Error err);
         writeFile_call := None;
         exit_status := Some 1 |}
  | inr bundle =>
      match MarshalIndent bundle with
      | inl err =>
          {| stdout := started ++ Println2 "Error encoding JSON:" err;
             writeFile_call := None;
             exit_status := Some 1 |}
      | inr data =>
          match WriteFile (outputFile flags) data 420 with
          | Some err =>
              {| stdout := started ++ Println2 "Error writing output:" err;
                 writeFile_call := Some (outputFile flags, data, 420);
                 exit_status := Some 1 |}
          | None =>
              {| stdout := started ++ "✅ Bundle created successfully: "
                                   ++ outputFile flags ++ newline;
                 writeFile_call := Some (outputFile flags, data, 420);
                 exit_status := None |}
          end
      end
  end.

End cmd.

(** * Vocabulary of the properties *)

Import schema filepath bundler.

Definition octet_stream : string := "application/octet-stream".

(** The extensions [detectMIME] has a case for, and those [classifyType]
    has a case for. *)
Definition mime_cases : list string :=
  [".md"; ".txt"; ".json"; ".go"; ".rtf"].

Definition type_cases : list string :=
  [".go"; ".js"; ".ts"; ".py"; ".cs"; ".java";
   ".json"; ".yaml"; ".yml"; ".toml"; ".plist"; ".csv";
   ".md"; ".txt"; ".rtf"].

(** ASCII lower-casing, used only to say what a case-insensitive
    classifier would have to satisfy; the bundler calls nothing like it. *)
Definition lower_byte (c : ascii) : ascii :=
  let n := nat_of_ascii c in
  if andb (Nat.leb 65 n) (Nat.leb n 90) then ascii_of_nat (n + 32) else c.

Fixpoint lower (s : string) : string :=
  match s with
  | EmptyString => EmptyString
  | String c rest => String (lower_byte c) (lower rest)
  end.

(** Classification that ignores the case of the extension. *)
Definition case_insensitive_classification : Prop :=
  forall p q : string,
    lower (Ext p) = lower (Ext q) ->
    detectMIME p = detectMIME q /\
    classifyType (Ext p) = classifyType (Ext q).

(** A record the callback built. *)
Definition made_by (b : Bundler) (f : FileBundle) : Prop :=
  exists path info, f = fileRecord b path info.

(** The sum of the recorded sizes, as an integer. *)
Definition sum_sizes (files : list FileBundle) : Z :=
  fold_right (fun f acc => SizeBytes f + acc) 0 files.

(** The invariant of the data model, with the integer sum. *)
Definition summary_totals_exact (bundle : Bundle) : Prop :=
  exists s, Summary bundle = Some s /\
            TotalFiles s = Z.of_nat (List.length (Files bundle)) /\
            TotalSize s = sum_sizes (Files bundle).

(** Two files and a subdirectory holding a third, listed in the sorted
    order of [readDirNames]. *)
Definition docs_tree : node :=
  Dir "docs" 4096 50
    (inr [File "a.md" 1200 10;
          File "b.bin" 10 40;
          Dir "img" 4096 20 (inr [File "logo.png" 900 30])]).

(** Two sparse files of [2^62] bytes each. *)
Definition sparse_tree : node :=
  Dir "vol" 4096 0 (inr [File "a.img" (2 ^ 62) 1; File "b.img" (2 ^ 62) 2]).

(** No entry the walk reaches reports an error: no [Lstat] failure and no
    unreadable directory.  [root] tells the root from the entries below
    it; below the root, the entries of a directory are reached only in
    recursive mode. *)
Fixpoint reachable_ok (recursive root : bool) (n : node) : bool :=
  match n with
  | Broken _ _ => false
  | File _ _ _ => true
  | Dir _ _ _ (inl _) => false
  | Dir _ _ _ (inr names) =>
      if recursive || root
      then forallb (reachable_ok recursive false) names
      else true
  end.

(** The records of the files the walk reaches, in walk order. *)
Fixpoint collect (b : Bundler) (root : bool) (path : string) (n : node)
  : list FileBundle :=
  match n with
  | Broken _ _ => []
  | File name size mt =>
      [fileRecord b path
         {| InfoName := name; Size := size; ModTime := mt; IsDir := false |}]
  | Dir _ _ _ (inl _) => []
  | Dir _ _ _ (inr names) =>
      if Recursive b || root
      then flat_map (fun c => collect b false (Join path (node_name c)) c)
                    names
      else []
  end.

(** What the callback answers for an error-free entry below the root. *)
Definition skip_result (b : Bundler) (n : node) : option error :=
  if node_isDir n && negb (Recursive b) then Some SkipDir else None.

(** An entry below the root: either the walk of it appends its records,
    or it stops with the error of the operating system. *)
Definition visit_spec (b : Bundler) (n : node) : Prop :=
  forall path files,
    (String.length (RootPath b) < String.length path)%nat ->
    (reachable_ok (Recursive b) false n = true ->
     visit (walkFn b) path n files
     = ((files ++ collect b false path n)%list, skip_result b n)) /\
    (reachable_ok (Recursive b) false n = false ->
     exists files' msg,
       visit (walkFn b) path n files = (files', Some (OsError msg))).

(** A directory one of whose entries vanished between the listing and
    [Lstat]. *)
Definition racy_tree : node :=
  Dir "docs" 4096 50
    (inr [File "a.md" 1200 10;
          Broken "gone.txt" "lstat docs/gone.txt: no such file or directory";
          File "z.txt" 7 40]).

(** A directory with a subdirectory that cannot be listed. *)
Definition locked_tree : node :=
  Dir "docs" 4096 50
    (inr [File "a.md" 1200 10;
          Dir "private" 4096 20 (inl "open docs/private: permission denied");
          File "z.txt" 7 40]).

(** The first record, in walk order, among those of maximal token count. *)
Fixpoint first_largest (files : list FileBundle) : option FileBundle :=
  match files with
  | [] => None
  | f :: rest =>
      match first_largest rest with
      | None => Some f
      | Some g => if TokenCount g <=? TokenCount f then Some f else Some g
      end
  end.

(** A string that names a record: by its path, its relative path or its
    base name. *)
Definition identifies (s : string) (f : FileBundle) : Prop :=
  s = Path f \/ s = RelativePath f \/ s = Name f.

(** [LargestFile] names the first record of maximal token count. *)
Definition largest_file_identified (bundle : Bundle) : Prop :=
  forall s f,
    Summary bundle = Some s ->
    first_largest (Files bundle) = Some f ->
    identifies (LargestFile s) f.

(** The records of the non-directories directly inside the root. *)
Definition immediate_files (b : Bundler) (names : list node)
  : list FileBundle :=
  flat_map
    (fun c =>
       match c with
       | File name size mt =>
           [fileRecord b (Join (RootPath b) name)
              {| InfoName := name; Size := size; ModTime := mt;
                 IsDir := false |}]
       | _ => []
       end) names.

(** [file_at path n p info]: the tree [n], found at [path], holds at path
    [p] a non-directory whose [Lstat] result is [info]. *)
Inductive file_at : string -> node -> string -> FileInfo -> Prop :=
| file_here (path name : string) (size mt : Z) :
    file_at path (File name size mt) path
            {| InfoName := name; Size := size; ModTime := mt; IsDir := false |}
| file_below (path name : string) (size mt : Z) (names : list node)
             (c : node) (p : string) (info : FileInfo) :
    In c names ->
    file_at (Join path (node_name c)) c p info ->
    file_at path (Dir name size mt (inr names)) p info.

(** The name holds a path separator; no name [readDirNames] returns
    does. *)
Fixpoint has_sep (s : string) : bool :=
  match s with
  | EmptyString => false
  | String c rest => Ascii.eqb c Separator || has_sep rest
  end.

(** The string holds a dot. *)
Fixpoint has_dot (s : string) : bool :=
  match s with
  | EmptyString => false
  | String c rest => Ascii.eqb c dot || has_dot rest
  end.

(** A byte the loop of [Ext] steps over: neither a separator nor a dot. *)
Definition plain (c : ascii) : bool :=
  negb (Ascii.eqb c Separator) && negb (Ascii.eqb c dot).

(** The message of the first error the walk meets, in walk order; [None]
    when it meets none. *)
Fixpoint first_error (recursive root : bool) (n : node) : option string :=
  match n with
  | Broken _ msg => Some msg
  | File _ _ _ => None
  | Dir _ _ _ (inl msg) => Some msg
  | Dir _ _ _ (inr names) =>
      if recursive || root
      then fold_right
             (fun c later =>
                match first_error recursive false c with
                | Some msg => Some msg
                | None => later
                end) None names
      else None
  end.

(** A directory entry with whatever it holds forgotten. *)
Definition prune (n : node) : node :=
  match n with
  | Dir name size mt (inr _) => Dir name size mt (inr [])
  | _ => n
  end.

(** The four categories of [classifyType], the six MIME types of
    [detectMIME]. *)
Definition categories : list string := ["code"; "data"; "text"; "binary"].

Definition mime_types : list string :=
  ["text/markdown"; "text/plain"; "application/json"; "text/x-go";
   "application/rtf"; "application/octet-stream"].

(** Below the root, the walk of an entry stops with the first error in
    it. *)
Definition visit_error_spec (b : Bundler) (n : node) : Prop :=
  forall path files msg,
    (String.length (RootPath b) < String.length path)%nat ->
    first_error (Recursive b) false n = Some msg ->
    exists files',
      visit (walkFn b) path n files = (files', Some (OsError msg)).

(** Below a subdirectory, an entry that cannot be examined. *)
Definition deep_error_tree : node :=
  Dir "docs" 4096 50
    (inr [File "a.md" 1200 10;
          File "b.bin" 10 40;
          Dir "img" 4096 20
            (inr [Broken "logo.png" "lstat docs/img/logo.png: input/output error"])]).

(** The strings of a list are pairwise different. *)
Fixpoint distinct (l : list string) : bool :=
  match l with
  | [] => true
  | x :: rest => negb (existsb (String.eqb x) rest) && distinct rest
  end.

(** A tree as a filesystem presents it: in every directory the names hold
    no separator and no two entries share a name. *)
Fixpoint well_named (n : node) : bool :=
  match n with
  | Dir _ _ _ (inr names) =>
      forallb (fun c => negb (has_sep (node_name c))) names
      && distinct (map node_name names)
      && forallb well_named names
  | _ => true
  end.

(** The sum of the recorded token counts. *)
Definition sum_tokens (files : list FileBundle) : Z :=
  fold_right (fun f acc => TokenCount f + acc) 0 files.

(** [rel_file n rel info]: starting in the directory [n] and following the
    entry names spelled in [rel], one after the other with a separator in
    between, leads to a non-directory whose [Lstat] result is [info]. *)
Inductive rel_file : node -> string -> FileInfo -> Prop :=
| rel_child (dname : string) (dsize dmt : Z) (names : list node)
            (name : string) (size mt : Z) :
    In (File name size mt) names ->
    rel_file (Dir dname dsize dmt (inr names)) name
             {| InfoName := name; Size := size; ModTime := mt; IsDir := false |}
| rel_deeper (dname : string) (dsize dmt : Z) (names : list node)
             (c : node) (rest : string) (info : FileInfo) :
    In c names ->
    rel_file c rest info ->
    rel_file (Dir dname dsize dmt (inr names))
             (node_name c ++ String Separator rest) info.

(** An entry name as [readDirNames] returns them: not empty, neither [.]
    nor [..], without separator. *)
Definition entry_name (s : string) : bool :=
  negb (String.eqb s "") && negb (String.eqb s ".")
  && negb (String.eqb s "..") && negb (has_sep s).

(** Every directory of the tree lists entry names only. *)
Fixpoint listed_names (n : node) : bool :=
  match n with
  | Dir _ _ _ (inr names) =>
      forallb (fun c => entry_name (node_name c)) names
      && forallb listed_names names
  | _ => true
  end.

(** * Properties *)

(** ** The format classifier *)

(** Decide every string comparison in the goal, substituting where the
    strings are equal. *)
Ltac case_ext :=
  repeat match goal with
         | |- context [String.eqb ?a ?b] =>
             destruct (String.eqb_spec a b);
             [ subst; simpl in *; try discriminate; try tauto | ]
         end.

Lemma detectMIME_default (path : string) :
  ~ In (Ext path) mime_cases -> detectMIME path = octet_stream.
Proof.
  unfold detectMIME, mime_cases. intros Hnot.
  case_ext; try reflexivity; exfalso;
    match goal with
    | e : Ext path = _ |- _ => rewrite e in Hnot; apply Hnot; simpl; tauto
    end.
Qed.

Lemma classifyType_default (ext : string) :
  ~ In ext type_cases -> classifyType ext = "binary".
Proof.
  unfold classifyType, ext_in, type_cases. intros Hnot. simpl existsb.
  case_ext; try reflexivity; exfalso; apply Hnot; simpl; tauto.
Qed.

(** C4, as the code has it: classification is a total function of the
    extension exactly as spelled.  Paths with the same extension classify
    alike; an extension without a case in [detectMIME] gets
    [application/octet-stream], one without a case in [classifyType] gets
    [binary]; and since the cases are lower-case and compared byte for byte,
    [.MD] is such an extension. *)
Theorem classification_exact_extension :
  (forall p q : string,
      Ext p = Ext q ->
      detectMIME p = detectMIME q /\
      classifyType (Ext p) = classifyType (Ext q)) /\
  (forall p : string,
      ~ In (Ext p) mime_cases -> detectMIME p = octet_stream) /\
  (forall ext : string,
      ~ In ext type_cases -> classifyType ext = "binary") /\
  detectMIME "README.MD" = octet_stream /\
  classifyType (Ext "README.MD") = "binary".
Proof.
  split; [ | split; [ | split; [ | split ] ] ].
  - intros p q Heq. unfold detectMIME. rewrite Heq. split; reflexivity.
  - exact detectMIME_default.
  - exact classifyType_default.
  - reflexivity.
  - reflexivity.
Qed.

Lemma classification_exact_extension_witness :
  detectMIME "notes/a.md" = detectMIME "b.md" /\
  classifyType (Ext "notes/a.md") = classifyType (Ext "b.md").
Proof.
  apply (proj1 classification_exact_extension "notes/a.md" "b.md").
  reflexivity.
Defined.

(** C4, as stated, fails: [README.MD] and [README.md] have extensions
    equal up to case and classify differently. *)
Lemma classification_is_case_sensitive :
  ~ case_insensitive_classification.
Proof.
  intros H. destruct (H "README.MD" "README.md" eq_refl) as [Hmime _].
  vm_compute in Hmime. discriminate Hmime.
Qed.

(** C10: a path whose extension [classifyType] calls [binary] has MIME type
    [application/octet-stream]; not conversely: [.js], [.py] and [.yaml]
    are [code], [code] and [data], with MIME type
    [application/octet-stream]. *)
Theorem binary_type_implies_octet_stream :
  (forall path : string,
      classifyType (Ext path) = "binary" -> detectMIME path = octet_stream) /\
  (detectMIME "app.js" = octet_stream /\ classifyType (Ext "app.js") = "code") /\
  (detectMIME "run.py" = octet_stream /\ classifyType (Ext "run.py") = "code") /\
  (detectMIME "ci.yaml" = octet_stream /\ classifyType (Ext "ci.yaml") = "data").
Proof.
  split; [ | repeat split; reflexivity ].
  intros path Hbin. unfold detectMIME.
  case_ext; try reflexivity;
    match goal with
    | e : Ext path = _ |- _ => rewrite e in Hbin; vm_compute in Hbin; discriminate Hbin
    end.
Qed.

Lemma binary_type_implies_octet_stream_witness :
  detectMIME "photo.png" = octet_stream.
Proof.
  apply (proj1 binary_type_implies_octet_stream "photo.png").
  reflexivity.
Defined.

(** ** Induction over the filesystem *)

Section NodeInduction.

Variable P : node -> Prop.
Hypothesis P_Broken : forall name msg, P (Broken name msg).
Hypothesis P_File : forall name size mt, P (File name size mt).
Hypothesis P_Unreadable :
  forall name size mt msg, P (Dir name size mt (inl msg)).
Hypothesis P_Dir :
  forall name size mt names,
    Forall P names -> P (Dir name size mt (inr names)).

Lemma node_induction : forall n : node, P n.
Proof.
  fix IH 1. intros [name msg | name size mt | name size mt [msg | names]].
  - apply P_Broken.
  - apply P_File.
  - apply P_Unreadable.
  - apply P_Dir. revert names. fix IHnames 1. intros [ | c rest].
    + constructor.
    + constructor; [ apply IH | apply IHnames ].
Qed.

End NodeInduction.

(** ** What the walk does to [files] *)

(** The callback only ever appends records it built. *)
Lemma walkFn_appends (b : Bundler) path info err files :
  exists added,
    fst (walkFn b path info err files) = (files ++ added)%list /\
    Forall (made_by b) added.
Proof.
  unfold walkFn.
  destruct err as [e | ]; [ exists []; rewrite app_nil_r; auto | ].
  destruct info as [info | ]; [ | exists []; rewrite app_nil_r; auto ].
  destruct (IsDir info).
  - exists []. rewrite app_nil_r.
    destruct (negb (Recursive b) && negb (path =? RootPath b)%string); auto.
  - exists [fileRecord b path info]. split; [ reflexivity | ].
    constructor; [ exists path, info; reflexivity | constructor ].
Qed.

Lemma walkNames_appends (b : Bundler) path names :
  Forall (fun n => forall path files, exists added,
              fst (visit (walkFn b) path n files) = (files ++ added)%list /\
              Forall (made_by b) added) names ->
  forall files, exists added,
    fst (walkNames (visit (walkFn b)) path names files)
    = (files ++ added)%list /\
    Forall (made_by b) added.
Proof.
  induction 1 as [ | c rest Hc _ IH]; intros files; simpl.
  - exists []. rewrite app_nil_r. auto.
  - destruct (Hc (Join path (node_name c)) files) as [a1 [E1 F1]].
    destruct (visit (walkFn b) (Join path (node_name c)) c files)
      as [s' err] eqn:Ev.
    simpl in E1. subst s'.
    destruct (IH (files ++ a1)%list) as [a2 [E2 F2]].
    assert (Hgo : exists added,
               fst (walkNames (visit (walkFn b)) path rest (files ++ a1)%list)
               = (files ++ added)%list /\ Forall (made_by b) added).
    { exists (a1 ++ a2)%list. rewrite E2, app_assoc.
      split; [ reflexivity | apply Forall_app; auto ]. }
    assert (Hstop : forall e, exists added,
               fst ((files ++ a1)%list, Some (e : error)) = (files ++ added)%list /\
               Forall (made_by b) added).
    { intros e. exists a1. auto. }
    destruct c, err as [[ | | | ] | ]; auto.
Qed.

Lemma visit_appends (b : Bundler) :
  forall n path files, exists added,
    fst (visit (walkFn b) path n files) = (files ++ added)%list /\
    Forall (made_by b) added.
Proof.
  induction n as [name msg | name size mt | name size mt msg
                 | name size mt names IH] using node_induction;
    intros path files; cbn [visit].
  - apply walkFn_appends.
  - apply walkFn_appends.
  - destruct (walkFn_appends b path
                (lstat (Dir name size mt (inl msg)))
                (Some (OsError msg)) files) as [a [E F]].
    destruct (walkFn b path _ _ files) as [s1 err1].
    cbn [fst] in E. exists a. auto.
  - destruct (walkFn_appends b path
                (lstat (Dir name size mt (inr names))) None files)
      as [a1 [E1 F1]].
    destruct (walkFn b path _ _ files) as [s1 err1].
    cbn [fst] in E1. subst s1.
    destruct err1 as [e | ]; [ exists a1; auto | ].
    destruct (walkNames_appends b path names IH (files ++ a1)%list)
      as [a2 [E2 F2]].
    exists (a1 ++ a2)%list. rewrite E2, app_assoc.
    split; [ reflexivity | apply Forall_app; auto ].
Qed.

(** What a successful [BuildBundle] returns. *)
Lemma BuildBundle_inr (b : Bundler) (fs : node) (now : Z) (bundle : Bundle) :
  BuildBundle b fs now = inr bundle ->
  Forall (made_by b) (Files bundle) /\
  Summary bundle = Some (buildSummary (Files bundle)).
Proof.
  unfold BuildBundle, Walk. intros H.
  destruct (visit_appends b fs (RootPath b) []) as [added [E F]].
  destruct (visit (walkFn b) (RootPath b) fs []) as [files err].
  simpl in E. subst files.
  destruct err as [[ | | msg | ] | ]; inversion H; subst; simpl; auto.
Qed.

(** ** The summary *)

Lemma wrap64_small (z : Z) :
  int64_min <= z <= int64_max -> wrap64 z = z.
Proof.
  unfold wrap64, int64_min, int64_max. intros H.
  rewrite Z.mod_small; lia.
Qed.

Lemma int64_add_wrap64_l (a x : Z) :
  int64_add (wrap64 a) x = wrap64 (a + x).
Proof.
  unfold int64_add, wrap64. f_equal.
  replace ((a + 2 ^ 63) mod 2 ^ 64 - 2 ^ 63 + x + 2 ^ 63)
    with ((a + 2 ^ 63) mod 2 ^ 64 + x) by ring.
  rewrite Z.add_mod_idemp_l by lia. f_equal. ring.
Qed.

Lemma totalSize_from (files : list FileBundle) (a : Z) :
  fold_left (fun acc f => int64_add acc (SizeBytes f)) files (wrap64 a)
  = wrap64 (a + sum_sizes files).
Proof.
  revert a. induction files as [ | f rest IH]; intros a; simpl.
  - f_equal. ring.
  - rewrite int64_add_wrap64_l, IH. f_equal. ring.
Qed.

(** The [int64] accumulation is the integer sum, wrapped once. *)
Lemma totalSize_wrap64 (files : list FileBundle) :
  totalSize files = wrap64 (sum_sizes files).
Proof.
  unfold totalSize. change 0 with (wrap64 0) at 1.
  rewrite totalSize_from. reflexivity.
Qed.

(** C1, as the code has it: [TotalFiles] is the number of records, and
    [TotalSize] is the sum of their sizes in [int64] arithmetic: the
    integer sum wrapped to 64 bits, hence the integer sum itself whenever
    that fits an [int64]. *)
Theorem summary_totals (b : Bundler) (fs : node) (now : Z) (bundle : Bundle) :
  BuildBundle b fs now = inr bundle ->
  exists s, Summary bundle = Some s /\
            TotalFiles s = Z.of_nat (List.length (Files bundle)) /\
            TotalSize s = wrap64 (sum_sizes (Files bundle)) /\
            (int64_min <= sum_sizes (Files bundle) <= int64_max ->
             TotalSize s = sum_sizes (Files bundle)).
Proof.
  intros H. destruct (BuildBundle_inr _ _ _ _ H) as [_ Hs].
  exists (buildSummary (Files bundle)). split; [ exact Hs | ].
  split; [ reflexivity | ]. simpl.
  split; [ apply totalSize_wrap64 | ].
  intros Hfit. rewrite totalSize_wrap64. apply wrap64_small. exact Hfit.
Qed.

Lemma summary_totals_witness :
  exists bundle s,
    BuildBundle (NewBundler "docs" true) docs_tree 99 = inr bundle /\
    Summary bundle = Some s /\
    TotalFiles s = 3 /\ TotalSize s = 2110.
Proof.
  eexists.
  destruct (summary_totals (NewBundler "docs" true) docs_tree 99 _ eq_refl)
    as [s [Hs [Hn [Hw _]]]].
  exists s. split; [ reflexivity | ]. split; [ exact Hs | ].
  split; [ exact Hn | exact Hw ].
Defined.

(** C1, as stated, fails: the two sizes add up to [2^63], which the
    [int64] accumulator holds as [-2^63]. *)
Lemma total_size_wraps_around :
  exists bundle,
    BuildBundle (NewBundler "vol" false) sparse_tree 0 = inr bundle /\
    ~ summary_totals_exact bundle.
Proof.
  eexists. split; [ reflexivity | ].
  intros [s [Hs [_ Hsum]]]. simpl in Hs. inversion Hs; subst s.
  vm_compute in Hsum. discriminate Hsum.
Qed.

Lemma sum_tokens_made (b : Bundler) (files : list FileBundle) :
  Forall (made_by b) files -> sum_tokens files = 0.
Proof.
  induction 1 as [ | f rest [path [info ->]] _ IH]; simpl;
    [ reflexivity | rewrite IH; reflexivity ].
Qed.

(** C5: in every returned bundle [TotalFiles] is the number of files and
    [TotalTokens] the sum of their token counts; [AvgTokens] is exactly 0
    when there are no files, and otherwise [TotalFiles] is not 0 and
    [AvgTokens] equals [TotalTokens / TotalFiles]. *)
Theorem avg_tokens (b : Bundler) (fs : node) (now : Z) (bundle : Bundle) :
  BuildBundle b fs now = inr bundle ->
  exists s, Summary bundle = Some s /\
            TotalFiles s = Z.of_nat (List.length (Files bundle)) /\
            TotalTokens s = sum_tokens (Files bundle) /\
            (Files bundle = [] -> AvgTokens s = 0%Q) /\
            (Files bundle <> [] ->
             TotalFiles s <> 0 /\
             (AvgTokens s
              == inject_Z (TotalTokens s) / inject_Z (TotalFiles s))%Q).
Proof.
  intros H. destruct (BuildBundle_inr _ _ _ _ H) as [Hmade Hs].
  exists (buildSummary (Files bundle)). split; [ exact Hs | ].
  split; [ reflexivity | ].
  split; [ symmetry; exact (sum_tokens_made b _ Hmade) | ].
  split; [ reflexivity | ].
  intros Hne. cbn [buildSummary TotalFiles TotalTokens AvgTokens]. split.
  - destruct (Files bundle) as [ | f rest]; [ now elim Hne | ].
    cbn [List.length]. lia.
  - unfold Qdiv. rewrite Qmult_0_l. reflexivity.
Qed.

Lemma avg_tokens_witness :
  exists bundle s,
    BuildBundle (NewBundler "docs" false) docs_tree 99 = inr bundle /\
    Summary bundle = Some s /\
    TotalFiles s = 2 /\
    (AvgTokens s == inject_Z (TotalTokens s) / inject_Z (TotalFiles s))%Q.
Proof.
  eexists.
  destruct (avg_tokens (NewBundler "docs" false) docs_tree 99 _ eq_refl)
    as [s [Hs [Hn [_ [_ Havg]]]]].
  exists s. split; [ reflexivity | ]. split; [ exact Hs | ].
  split; [ exact Hn | ].
  apply Havg. discriminate.
Defined.

(** C7: on an existing, readable, empty directory [BuildBundle] succeeds
    with no files, [TotalFiles = 0] and [AvgTokens = 0]. *)
Theorem empty_directory (root : string) (recursive : bool)
        (name : string) (size mt now : Z) :
  exists bundle s,
    BuildBundle (NewBundler root recursive) (Dir name size mt (inr [])) now
    = inr bundle /\
    Files bundle = [] /\
    Summary bundle = Some s /\
    TotalFiles s = 0 /\
    AvgTokens s = 0%Q.
Proof.
  unfold BuildBundle, Walk, NewBundler. cbn [visit lstat walkFn IsDir RootPath Recursive].
  rewrite String.eqb_refl, andb_false_r. cbn [walkNames].
  eexists. eexists. split; [ reflexivity | ].
  repeat split; reflexivity.
Qed.

(** C8: every record of a returned bundle has [TokenCount = 0], no
    [Document], no [Hash], [Language], [Encoding] or [Metadata], and
    [TotalTokens] is 0. *)
Theorem metadata_only (b : Bundler) (fs : node) (now : Z) (bundle : Bundle) :
  BuildBundle b fs now = inr bundle ->
  Forall (fun f => TokenCount f = 0 /\ Document f = None /\
                   Hash f = "" /\ Language f = "" /\ Encoding f = "" /\
                   Metadata f = None) (Files bundle) /\
  exists s, Summary bundle = Some s /\ TotalTokens s = 0.
Proof.
  intros H. destruct (BuildBundle_inr _ _ _ _ H) as [Hmade Hs]. split.
  - eapply Forall_impl; [ | exact Hmade ].
    intros f [path [info ->]]. repeat split; reflexivity.
  - exists (buildSummary (Files bundle)). split; [ exact Hs | reflexivity ].
Qed.

Lemma metadata_only_witness :
  exists bundle,
    BuildBundle (NewBundler "docs" true) docs_tree 99 = inr bundle /\
    List.length (Files bundle) = 3%nat /\
    Forall (fun f => TokenCount f = 0 /\ Document f = None /\
                     Hash f = "" /\ Language f = "" /\ Encoding f = "" /\
                     Metadata f = None) (Files bundle).
Proof.
  eexists. split; [ reflexivity | ]. split; [ reflexivity | ].
  exact (proj1 (metadata_only (NewBundler "docs" true) docs_tree 99 _ eq_refl)).
Defined.

(** C9: every record of a returned bundle has [CreatedAt] equal to
    [ModifiedAt]; both are the modification time [Lstat] reported. *)
Theorem created_is_modified (b : Bundler) (fs : node) (now : Z)
        (bundle : Bundle) :
  BuildBundle b fs now = inr bundle ->
  Forall (fun f => CreatedAt f = ModifiedAt f) (Files bundle).
Proof.
  intros H. destruct (BuildBundle_inr _ _ _ _ H) as [Hmade _].
  eapply Forall_impl; [ | exact Hmade ].
  intros f [path [info ->]]. reflexivity.
Qed.

Lemma created_is_modified_witness :
  exists bundle,
    BuildBundle (NewBundler "docs" true) docs_tree 99 = inr bundle /\
    map CreatedAt (Files bundle) = [10; 40; 30] /\
    Forall (fun f => CreatedAt f = ModifiedAt f) (Files bundle).
Proof.
  eexists. split; [ reflexivity | ]. split; [ reflexivity | ].
  exact (created_is_modified (NewBundler "docs" true) docs_tree 99 _ eq_refl).
Defined.

(** ** Paths *)

Lemma length_append (s t : string) :
  String.length (s ++ t) = (String.length s + String.length t)%nat.
Proof.
  induction s as [ | c s IH]; simpl; [ reflexivity | now rewrite IH ].
Qed.

Lemma append_assoc (s t u : string) : (s ++ t) ++ u = s ++ (t ++ u).
Proof.
  induction s as [ | c s IH]; simpl; [ reflexivity | now rewrite IH ].
Qed.

Lemma append_inj_l (s t u : string) : s ++ t = s ++ u -> t = u.
Proof.
  induction s as [ | c s IH]; simpl; intros H; [ exact H | ].
  inversion H. auto.
Qed.

Lemma Join_longer (path name : string) :
  (String.length path < String.length (Join path name))%nat.
Proof.
  unfold Join. rewrite length_append. simpl. lia.
Qed.

(** A path strictly longer than the root is not the root. *)
Lemma below_root_neq (b : Bundler) (path : string) :
  (String.length (RootPath b) < String.length path)%nat ->
  (path =? RootPath b)%string = false.
Proof.
  intros Hlen. apply String.eqb_neq. intros ->. lia.
Qed.

(** ** The walk, entry by entry *)

Lemma walkNames_spec (b : Bundler) (path : string) (names : list node) :
  Forall (visit_spec b) names ->
  (String.length (RootPath b) <= String.length path)%nat ->
  forall files,
    (forallb (reachable_ok (Recursive b) false) names = true ->
     walkNames (visit (walkFn b)) path names files
     = ((files ++ flat_map (fun c => collect b false (Join path (node_name c)) c)
                           names)%list, None)) /\
    (forallb (reachable_ok (Recursive b) false) names = false ->
     exists files' msg,
       walkNames (visit (walkFn b)) path names files
       = (files', Some (OsError msg))).
Proof.
  intros Hall Hlen.
  induction Hall as [ | c rest Hc _ IH]; intros files.
  - split; [ intros _; simpl; now rewrite app_nil_r | discriminate ].
  - assert (Hbelow : (String.length (RootPath b)
                      < String.length (Join path (node_name c)))%nat).
    { pose proof (Join_longer path (node_name c)). lia. }
    destruct (Hc (Join path (node_name c)) files Hbelow) as [Hok Hbad].
    cbn [walkNames forallb flat_map].
    destruct (reachable_ok (Recursive b) false c) eqn:Ec.
    + rewrite (Hok eq_refl). cbn [andb].
      destruct (IH (files ++ collect b false (Join path (node_name c)) c)%list)
        as [IHok IHbad].
      assert (Hnext :
                (forallb (reachable_ok (Recursive b) false) rest = true ->
                 walkNames (visit (walkFn b)) path rest
                   (files ++ collect b false (Join path (node_name c)) c)%list
                 = ((files ++ collect b false (Join path (node_name c)) c
                       ++ flat_map
                            (fun c0 => collect b false (Join path (node_name c0)) c0)
                            rest)%list, None)) /\
                (forallb (reachable_ok (Recursive b) false) rest = false ->
                 exists files' msg,
                   walkNames (visit (walkFn b)) path rest
                     (files ++ collect b false (Join path (node_name c)) c)%list
                   = (files', Some (OsError msg)))).
      { split; [ intros E; rewrite (IHok E), app_assoc; reflexivity | exact IHbad ]. }
      unfold skip_result.
      destruct c as [name msg | name size mt | name size mt listing];
        [ discriminate Ec | exact Hnext | ].
      cbn [node_isDir andb]. destruct (negb (Recursive b)); exact Hnext.
    + destruct (Hbad eq_refl) as [files' [msg Ev]]. rewrite Ev.
      split; [ discriminate | intros _ ].
      exists files', msg. destruct c; reflexivity.
Qed.

Lemma visit_below (b : Bundler) : forall n, visit_spec b n.
Proof.
  induction n as [name msg | name size mt | name size mt msg
                 | name size mt names IH] using node_induction;
    intros path files Hlen.
  - split; [ discriminate | intros _ ]. exists files, msg. reflexivity.
  - split; [ intros _; reflexivity | discriminate ].
  - split; [ discriminate | intros _ ]. exists files, msg. reflexivity.
  - cbn [visit lstat walkFn IsDir reachable_ok collect orb].
    rewrite (below_root_neq b path Hlen). cbn [negb andb].
    unfold skip_result. cbn [node_isDir andb].
    destruct (Recursive b) eqn:Erec; cbn [negb orb].
    + assert (Hle : (String.length (RootPath b) <= String.length path)%nat) by lia.
      pose proof (walkNames_spec b path names IH Hle files) as Hnames.
      rewrite Erec in Hnames. exact Hnames.
    + split; [ intros _; now rewrite app_nil_r | discriminate ].
Qed.

(** The whole walk, from the root. *)
Lemma Walk_spec (b : Bundler) (fs : node) :
  (reachable_ok (Recursive b) true fs = true ->
   Walk (walkFn b) (RootPath b) fs [] = (collect b true (RootPath b) fs, None)) /\
  (reachable_ok (Recursive b) true fs = false ->
   exists files' msg,
     Walk (walkFn b) (RootPath b) fs [] = (files', Some (OsError msg))).
Proof.
  unfold Walk.
  destruct fs as [name msg | name size mt | name size mt [msg | names]].
  - split; [ discriminate | intros _ ]. exists [], msg. reflexivity.
  - split; [ intros _; reflexivity | discriminate ].
  - split; [ discriminate | intros _ ]. exists [], msg. reflexivity.
  - cbn [visit lstat walkFn IsDir reachable_ok collect].
    rewrite String.eqb_refl, andb_false_r, !orb_true_r.
    assert (Hall : Forall (visit_spec b) names).
    { apply Forall_forall. intros c _. apply visit_below. }
    destruct (walkNames_spec b (RootPath b) names Hall (Nat.le_refl _) [])
      as [Hok Hbad].
    split.
    + intros E. rewrite (Hok E). reflexivity.
    + intros E. destruct (Hbad E) as [files' [msg Ew]]. rewrite Ew.
      exists files', msg. reflexivity.
Qed.

(** With no error in reach, [BuildBundle] returns the records collected. *)
Lemma BuildBundle_ok (b : Bundler) (fs : node) (now : Z) :
  reachable_ok (Recursive b) true fs = true ->
  exists bundle,
    BuildBundle b fs now = inr bundle /\
    Files bundle = collect b true (RootPath b) fs.
Proof.
  intros E. unfold BuildBundle. rewrite (proj1 (Walk_spec b fs) E).
  eexists. split; reflexivity.
Qed.

(** ** Errors during the walk *)

Lemma first_error_none (recursive : bool) :
  forall n root,
    first_error recursive root n = None <->
    reachable_ok recursive root n = true.
Proof.
  induction n as [name msg | name size mt | name size mt msg
                 | name size mt names IH] using node_induction;
    intros root; cbn [first_error reachable_ok].
  - split; discriminate.
  - split; reflexivity.
  - split; discriminate.
  - destruct (recursive || root); [ | split; reflexivity ].
    induction IH as [ | c rest Hc _ IHrest]; cbn [fold_right forallb].
    + split; reflexivity.
    + destruct (first_error recursive false c) eqn:Ec.
      * assert (Hbad : reachable_ok recursive false c = false).
        { destruct (reachable_ok recursive false c) eqn:Eok;
            [ | reflexivity ].
          apply Hc in Eok. congruence. }
        rewrite Hbad. split; discriminate.
      * rewrite (proj1 (Hc false) Ec). exact IHrest.
Qed.

Lemma walkNames_error (b : Bundler) (path : string) (names : list node) :
  Forall (visit_error_spec b) names ->
  (String.length (RootPath b) <= String.length path)%nat ->
  forall files msg,
    fold_right
      (fun c later =>
         match first_error (Recursive b) false c with
         | Some m => Some m
         | None => later
         end) None names = Some msg ->
    exists files',
      walkNames (visit (walkFn b)) path names files
      = (files', Some (OsError msg)).
Proof.
  intros Hall Hlen.
  induction Hall as [ | c rest Hc _ IH]; intros files msg Hfirst;
    cbn [fold_right] in Hfirst; [ discriminate Hfirst | ].
  assert (Hbelow : (String.length (RootPath b)
                    < String.length (Join path (node_name c)))%nat).
  { pose proof (Join_longer path (node_name c)). lia. }
  cbn [walkNames].
  destruct (first_error (Recursive b) false c) as [m | ] eqn:Ec.
  - inversion Hfirst; subst m.
    destruct (Hc _ files _ Hbelow Ec) as [files' Ev]. rewrite Ev.
    exists files'. destruct c; reflexivity.
  - apply first_error_none in Ec.
    rewrite (proj1 (visit_below b c _ files Hbelow) Ec).
    destruct (IH (files ++ collect b false (Join path (node_name c)) c)%list
                 msg Hfirst) as [files' Ew].
    exists files'. unfold skip_result.
    destruct c as [cn cm | cn cs cmt | cn cs cmt cl];
      [ discriminate Ec | exact Ew | ].
    cbn [node_isDir andb]. destruct (negb (Recursive b)); exact Ew.
Qed.

Lemma visit_error (b : Bundler) : forall n, visit_error_spec b n.
Proof.
  induction n as [name msg | name size mt | name size mt msg
                 | name size mt names IH] using node_induction;
    intros path files m Hlen Hfirst; cbn [first_error] in Hfirst.
  - inversion Hfirst; subst. exists files. reflexivity.
  - discriminate Hfirst.
  - inversion Hfirst; subst. exists files. reflexivity.
  - rewrite orb_false_r in Hfirst.
    destruct (Recursive b) eqn:Erec; [ | discriminate Hfirst ].
    cbn [visit lstat walkFn IsDir]. rewrite Erec. cbn [negb andb].
    assert (Hle : (String.length (RootPath b) <= String.length path)%nat)
      by lia.
    pose proof (walkNames_error b path names IH Hle files m) as Hw.
    rewrite Erec in Hw. exact (Hw Hfirst).
Qed.

Lemma BuildBundle_first_error (b : Bundler) (fs : node) (now : Z)
      (msg : string) :
  first_error (Recursive b) true fs = Some msg ->
  BuildBundle b fs now = inl (OsError msg).
Proof.
  intros E. unfold BuildBundle, Walk.
  destruct fs as [name m | name size mt | name size mt [m | names]];
    cbn [first_error] in E.
  - inversion E; subst. reflexivity.
  - discriminate E.
  - inversion E; subst. reflexivity.
  - rewrite orb_true_r in E.
    cbn [visit lstat walkFn IsDir].
    rewrite String.eqb_refl, andb_false_r.
    assert (Hall : Forall (visit_error_spec b) names).
    { apply Forall_forall. intros c _. apply visit_error. }
    destruct (walkNames_error b (RootPath b) names Hall (Nat.le_refl _)
                [] msg E) as [files' Ew].
    rewrite Ew. reflexivity.
Qed.

(** C2, as the code has it: the callback hands every error it is given
    back to [Walk], so [BuildBundle] returns a bundle exactly when no entry
    the walk reaches reports an error, at the root or below it; otherwise
    the walk stops at the first entry that reports one and [BuildBundle]
    returns that very error and no bundle.  No record carries metadata. *)
Theorem walk_errors_abort (b : Bundler) (fs : node) (now : Z) :
  (reachable_ok (Recursive b) true fs = true ->
   exists bundle,
     BuildBundle b fs now = inr bundle /\
     Files bundle = collect b true (RootPath b) fs /\
     Forall (fun f => Metadata f = None) (Files bundle)) /\
  (reachable_ok (Recursive b) true fs = false ->
   exists msg,
     first_error (Recursive b) true fs = Some msg /\
     BuildBundle b fs now = inl (OsError msg)) /\
  (forall msg,
      first_error (Recursive b) true fs = Some msg ->
      BuildBundle b fs now = inl (OsError msg)).
Proof.
  split; [ | split ].
  - intros E.
    destruct (BuildBundle_ok b fs now E) as [bundle [Hb Hfiles]].
    exists bundle. split; [ exact Hb | ]. split; [ exact Hfiles | ].
    destruct (BuildBundle_inr _ _ _ _ Hb) as [Hmade _].
    eapply Forall_impl; [ | exact Hmade ].
    intros f [path [info ->]]. reflexivity.
  - intros E.
    destruct (first_error (Recursive b) true fs) as [msg | ] eqn:Ef.
    + exists msg. split; [ reflexivity | ].
      apply BuildBundle_first_error. exact Ef.
    + apply first_error_none in Ef. congruence.
  - intros msg Ef. apply BuildBundle_first_error. exact Ef.
Qed.

Lemma walk_errors_abort_witness :
  (exists bundle,
      BuildBundle (NewBundler "docs" true) docs_tree 99 = inr bundle /\
      List.length (Files bundle) = 3%nat) /\
  BuildBundle (NewBundler "docs" true) racy_tree 99
  = inl (OsError "lstat docs/gone.txt: no such file or directory") /\
  BuildBundle (NewBundler "docs" false) locked_tree 99
  = inl (OsError "open docs/private: permission denied").
Proof.
  split; [ | split ].
  - destruct (proj1 (walk_errors_abort (NewBundler "docs" true) docs_tree 99)
                eq_refl) as [bundle [Hb [Hfiles _]]].
    exists bundle. split; [ exact Hb | ]. rewrite Hfiles. reflexivity.
  - exact (proj2 (proj2 (walk_errors_abort (NewBundler "docs" true)
                           racy_tree 99))
             "lstat docs/gone.txt: no such file or directory" eq_refl).
  - exact (proj2 (proj2 (walk_errors_abort (NewBundler "docs" false)
                           locked_tree 99))
             "open docs/private: permission denied" eq_refl).
Defined.

(** C2, as stated, fails: a failure of one entry below the root aborts the
    build, in either mode; no bundle is returned. *)
Lemma entry_failure_aborts_build :
  BuildBundle (NewBundler "docs" true) racy_tree 0
  = inl (OsError "lstat docs/gone.txt: no such file or directory") /\
  BuildBundle (NewBundler "docs" false) locked_tree 0
  = inl (OsError "open docs/private: permission denied") /\
  ~ (exists bundle,
        BuildBundle (NewBundler "docs" true) racy_tree 0 = inr bundle).
Proof.
  split; [ reflexivity | ]. split; [ reflexivity | ].
  intros [bundle H]. vm_compute in H. discriminate H.
Qed.

(** ** The largest file *)

(** C6, as the code has it: the summary names no largest file.
    [LargestFile] is the empty string and [LargestTokens] is 0, the token
    count of every record. *)
Theorem largest_file_unset (b : Bundler) (fs : node) (now : Z)
        (bundle : Bundle) :
  BuildBundle b fs now = inr bundle ->
  exists s, Summary bundle = Some s /\
            LargestFile s = "" /\
            LargestTokens s = 0 /\
            Forall (fun f => TokenCount f = LargestTokens s) (Files bundle).
Proof.
  intros H. destruct (BuildBundle_inr _ _ _ _ H) as [Hmade Hs].
  exists (buildSummary (Files bundle)). split; [ exact Hs | ].
  split; [ reflexivity | ]. split; [ reflexivity | ].
  eapply Forall_impl; [ | exact Hmade ].
  intros f [path [info ->]]. reflexivity.
Qed.

Lemma largest_file_unset_witness :
  exists bundle s,
    BuildBundle (NewBundler "docs" true) docs_tree 99 = inr bundle /\
    Summary bundle = Some s /\
    LargestFile s = "".
Proof.
  eexists.
  destruct (largest_file_unset (NewBundler "docs" true) docs_tree 99 _ eq_refl)
    as [s [Hs [Hl _]]].
  exists s. split; [ reflexivity | ]. split; [ exact Hs | exact Hl ].
Defined.

(** C6, as stated, fails: with three files the first of maximal token
    count is [docs/a.md], and [LargestFile] does not name it. *)
Lemma largest_file_not_identified :
  exists bundle,
    BuildBundle (NewBundler "docs" true) docs_tree 99 = inr bundle /\
    option_map Path (first_largest (Files bundle)) = Some "docs/a.md" /\
    ~ largest_file_identified bundle.
Proof.
  eexists. split; [ reflexivity | ]. split; [ reflexivity | ].
  intros H.
  destruct (H _ _ eq_refl eq_refl) as [E | [E | E]];
    vm_compute in E; discriminate E.
Qed.

(** ** Recursion *)

Lemma has_sep_append (s t : string) :
  has_sep (s ++ String Separator t) = true.
Proof.
  induction s as [ | c s IH]; simpl; [ reflexivity | ].
  rewrite IH. apply orb_true_r.
Qed.

(** A file inside a directory lies strictly below the directory's path. *)
Lemma file_at_path (path : string) (n : node) (p : string) (info : FileInfo) :
  file_at path n p info ->
  (node_isDir n = false /\ p = path) \/
  (node_isDir n = true /\ exists rest, p = path ++ "/" ++ rest).
Proof.
  induction 1 as [path name size mt
                 | path name size mt names c p info Hin Hat IH].
  - left. split; reflexivity.
  - right. split; [ reflexivity | ].
    destruct IH as [[_ ->] | [_ [rest ->]]].
    + exists (node_name c). reflexivity.
    + exists (node_name c ++ "/" ++ rest). unfold Join.
      rewrite append_assoc. reflexivity.
Qed.

Lemma collect_complete (b : Bundler) (path : string) (n : node)
      (p : string) (info : FileInfo) :
  Recursive b = true ->
  file_at path n p info ->
  forall root, In (fileRecord b p info) (collect b root path n).
Proof.
  intros Hrec H.
  induction H as [path name size mt
                 | path name size mt names c p info Hin Hat IH];
    intros root; cbn [collect].
  - left. reflexivity.
  - rewrite Hrec. cbn [orb]. apply in_flat_map.
    exists c. split; [ exact Hin | apply IH ].
Qed.

Lemma collect_sound (b : Bundler) :
  forall n root path f,
    In f (collect b root path n) ->
    exists p info, f = fileRecord b p info /\ file_at path n p info.
Proof.
  induction n as [name msg | name size mt | name size mt msg
                 | name size mt names IH] using node_induction;
    intros root path f Hin; cbn [collect] in Hin.
  - destruct Hin.
  - destruct Hin as [<- | []].
    eexists. eexists. split; [ reflexivity | constructor ].
  - destruct Hin.
  - destruct (Recursive b || root); [ | destruct Hin ].
    apply in_flat_map in Hin. destruct Hin as [c [Hc Hin]].
    rewrite Forall_forall in IH.
    destruct (IH c Hc false _ _ Hin) as [p [info [-> Hat]]].
    exists p, info. split; [ reflexivity | ].
    eapply file_below; eassumption.
Qed.

(** Without recursion the walk records the root's own files only. *)
Lemma collect_immediate (b : Bundler) (name : string) (size mt : Z)
      (names : list node) :
  Recursive b = false ->
  collect b true (RootPath b) (Dir name size mt (inr names))
  = immediate_files b names.
Proof.
  intros Hrec. cbn [collect]. rewrite orb_true_r.
  unfold immediate_files. apply flat_map_ext.
  intros [cn msg | cn csize cmt | cn csize cmt [msg | sub]]; cbn [collect node_name];
    try reflexivity.
  rewrite Hrec. reflexivity.
Qed.

Lemma immediate_files_paths (b : Bundler) (names : list node) (p : string) :
  In p (map Path (immediate_files b names)) ->
  exists c, In c names /\ p = Join (RootPath b) (node_name c).
Proof.
  intros Hin. apply in_map_iff in Hin. destruct Hin as [f [<- Hf]].
  unfold immediate_files in Hf. apply in_flat_map in Hf.
  destruct Hf as [c [Hc Hf]]. exists c. split; [ exact Hc | ].
  destruct c as [cn msg | cn csize cmt | cn csize cmt listing];
    try destruct Hf as [<- | []]; try destruct Hf.
  reflexivity.
Qed.

(** C3: on a root directory whose reachable entries report no error,
    - without recursion, [Files] holds the records of the root's own
      non-directories and nothing else; in particular no file found at any
      depth inside a subdirectory of the root has its path in [Files];
    - with recursion, [Files] holds exactly the records of the files found
      at any depth below the root. *)
Theorem recursion_flag (b : Bundler) (name : string) (size mt : Z)
        (names : list node) (now : Z) :
  reachable_ok (Recursive b) true (Dir name size mt (inr names)) = true ->
  exists bundle,
    BuildBundle b (Dir name size mt (inr names)) now = inr bundle /\
    (Recursive b = false ->
     Files bundle = immediate_files b names /\
     ((forall c, In c names -> has_sep (node_name c) = false) ->
      forall d p info,
        In d names -> node_isDir d = true ->
        file_at (Join (RootPath b) (node_name d)) d p info ->
        ~ In p (map Path (Files bundle)))) /\
    (Recursive b = true ->
     forall f,
       In f (Files bundle) <->
       exists p info,
         f = fileRecord b p info /\
         file_at (RootPath b) (Dir name size mt (inr names)) p info).
Proof.
  intros Hok.
  destruct (BuildBundle_ok b (Dir name size mt (inr names)) now Hok)
    as [bundle [Hb Hfiles]].
  exists bundle. split; [ exact Hb | ]. split.
  - intros Hrec. rewrite Hfiles, (collect_immediate b name size mt names Hrec).
    split; [ reflexivity | ].
    intros Hnames d p info Hd Hdir Hat Hin.
    destruct (file_at_path _ _ _ _ Hat) as [[Hnot _] | [_ [rest ->]]];
      [ congruence | ].
    destruct (immediate_files_paths b names _ Hin) as [c [Hc Heq]].
    unfold Join in Heq. rewrite append_assoc in Heq.
    apply append_inj_l in Heq. simpl in Heq. inversion Heq as [Hname].
    specialize (Hnames c Hc). rewrite <- Hname in Hnames.
    pose proof (has_sep_append (node_name d) rest) as Hsep.
    unfold Separator in Hsep. congruence.
  - intros Hrec f. rewrite Hfiles. split.
    + apply collect_sound.
    + intros [p [info [-> Hat]]]. apply collect_complete; assumption.
Qed.

Lemma recursion_flag_witness :
  (exists bundle,
      BuildBundle (NewBundler "docs" false) docs_tree 99 = inr bundle /\
      map Path (Files bundle) = ["docs/a.md"; "docs/b.bin"] /\
      ~ In "docs/img/logo.png" (map Path (Files bundle))) /\
  (exists bundle,
      BuildBundle (NewBundler "docs" true) docs_tree 99 = inr bundle /\
      In (fileRecord (NewBundler "docs" true) "docs/img/logo.png"
            {| InfoName := "logo.png"; Size := 900; ModTime := 30;
               IsDir := false |})
         (Files bundle)).
Proof.
  split.
  - destruct (recursion_flag (NewBundler "docs" false) "docs" 4096 50
                [File "a.md" 1200 10;
                 File "b.bin" 10 40;
                 Dir "img" 4096 20 (inr [File "logo.png" 900 30])] 99 eq_refl)
      as [bundle [Hb [Hnon _]]].
    destruct (Hnon eq_refl) as [Hfiles Habsent].
    exists bundle. split; [ exact Hb | ].
    split; [ rewrite Hfiles; reflexivity | ].
    assert (Hnames : forall c,
               In c [File "a.md" 1200 10;
                     File "b.bin" 10 40;
                     Dir "img" 4096 20 (inr [File "logo.png" 900 30])] ->
               has_sep (node_name c) = false).
    { intros c [<- | [<- | [<- | []]]]; reflexivity. }
    apply (Habsent Hnames
             (Dir "img" 4096 20 (inr [File "logo.png" 900 30]))
             "docs/img/logo.png"
             {| InfoName := "logo.png"; Size := 900; ModTime := 30;
                IsDir := false |}).
    + right. right. left. reflexivity.
    + reflexivity.
    + apply (file_below "docs/img" "img" 4096 20 [File "logo.png" 900 30]
               (File "logo.png" 900 30)).
      * left. reflexivity.
      * apply (file_here "docs/img/logo.png" "logo.png" 900 30).
  - destruct (recursion_flag (NewBundler "docs" true) "docs" 4096 50
                [File "a.md" 1200 10;
                 File "b.bin" 10 40;
                 Dir "img" 4096 20 (inr [File "logo.png" 900 30])] 99 eq_refl)
      as [bundle [Hb [_ Hrec]]].
    exists bundle. split; [ exact Hb | ].
    apply (Hrec eq_refl). eexists. eexists. split; [ reflexivity | ].
    apply (file_below "docs" "docs" 4096 50 _
             (Dir "img" 4096 20 (inr [File "logo.png" 900 30]))).
    + right. right. left. reflexivity.
    + apply (file_below "docs/img" "img" 4096 20 [File "logo.png" 900 30]
               (File "logo.png" 900 30)).
      * left. reflexivity.
      * apply (file_here "docs/img/logo.png" "logo.png" 900 30).
Defined.

(** ** [filepath.Ext] *)

Lemma string_of_list_ascii_app (l1 l2 : list ascii) :
  string_of_list_ascii (l1 ++ l2)
  = string_of_list_ascii l1 ++ string_of_list_ascii l2.
Proof.
  induction l1 as [ | c l1 IH]; simpl; [ reflexivity | now rewrite IH ].
Qed.

Lemma list_ascii_of_string_app (s t : string) :
  list_ascii_of_string (s ++ t)
  = (list_ascii_of_string s ++ list_ascii_of_string t)%list.
Proof.
  induction s as [ | c s IH]; simpl; [ reflexivity | now rewrite IH ].
Qed.

Lemma forallb_rev {A : Type} (f : A -> bool) (l : list A) :
  forallb f (rev l) = forallb f l.
Proof.
  induction l as [ | a l IH]; simpl; [ reflexivity | ].
  rewrite forallb_app, IH. simpl. rewrite andb_true_r. apply andb_comm.
Qed.

(** The bytes of a string are plain exactly when it holds neither a
    separator nor a dot. *)
Lemma plain_bytes (s : string) :
  forallb plain (list_ascii_of_string s) = negb (has_sep s) && negb (has_dot s).
Proof.
  induction s as [ | c s IH]; simpl; [ reflexivity | ].
  rewrite IH. unfold plain.
  destruct (Ascii.eqb c Separator), (Ascii.eqb c dot),
           (has_sep s), (has_dot s); reflexivity.
Qed.

Lemma plain_string (l : list ascii) :
  forallb plain l = true ->
  has_sep (string_of_list_ascii l) = false /\
  has_dot (string_of_list_ascii l) = false.
Proof.
  intros H.
  rewrite <- (list_ascii_of_string_of_list_ascii l), plain_bytes in H.
  destruct (has_sep (string_of_list_ascii l)),
           (has_dot (string_of_list_ascii l)); simpl in H;
    try discriminate H; split; reflexivity.
Qed.

(** The scan stops at the first dot it meets, with everything from the dot
    on. *)
Lemma ext_scan_dot (skipped rest suffix : list ascii) :
  forallb plain skipped = true ->
  ext_scan (skipped ++ dot :: rest) suffix
  = string_of_list_ascii (dot :: rev skipped ++ suffix).
Proof.
  revert suffix. induction skipped as [ | c skipped IH]; intros suffix H.
  - reflexivity.
  - simpl in H. apply andb_prop in H. destruct H as [Hc H].
    unfold plain in Hc. apply andb_prop in Hc. destruct Hc as [Hs Hd].
    apply negb_true_iff in Hs, Hd.
    cbn [app ext_scan]. rewrite Hs, Hd, IH by exact H.
    cbn [rev]. rewrite <- app_assoc. reflexivity.
Qed.

(** The scan stops empty-handed at a separator met before any dot. *)
Lemma ext_scan_sep (skipped rest suffix : list ascii) :
  forallb plain skipped = true ->
  ext_scan (skipped ++ Separator :: rest) suffix = "".
Proof.
  revert suffix. induction skipped as [ | c skipped IH]; intros suffix H.
  - reflexivity.
  - simpl in H. apply andb_prop in H. destruct H as [Hc H].
    unfold plain in Hc. apply andb_prop in Hc. destruct Hc as [Hs Hd].
    apply negb_true_iff in Hs, Hd.
    cbn [app ext_scan]. rewrite Hs, Hd. apply IH. exact H.
Qed.

Lemma ext_scan_end (skipped suffix : list ascii) :
  forallb plain skipped = true -> ext_scan skipped suffix = "".
Proof.
  revert suffix. induction skipped as [ | c skipped IH]; intros suffix H.
  - reflexivity.
  - simpl in H. apply andb_prop in H. destruct H as [Hc H].
    unfold plain in Hc. apply andb_prop in Hc. destruct Hc as [Hs Hd].
    apply negb_true_iff in Hs, Hd.
    cbn [ext_scan]. rewrite Hs, Hd. apply IH. exact H.
Qed.

(** Every byte string is a run of plain bytes followed by nothing, by a dot
    or by a separator. *)
Lemma plain_span (l : list ascii) :
  exists skipped tail,
    l = (skipped ++ tail)%list /\
    forallb plain skipped = true /\
    (tail = [] \/ exists rest, tail = dot :: rest \/ tail = Separator :: rest).
Proof.
  induction l as [ | c l [skipped [tail [-> [Hp Ht]]]]].
  - exists [], []. auto.
  - destruct (Ascii.eqb_spec c Separator) as [-> | Hs].
    + exists [], (Separator :: skipped ++ tail)%list.
      split; [ reflexivity | ]. split; [ reflexivity | ].
      right. eexists. right. reflexivity.
    + destruct (Ascii.eqb_spec c dot) as [-> | Hd].
      * exists [], (dot :: skipped ++ tail)%list.
        split; [ reflexivity | ]. split; [ reflexivity | ].
        right. eexists. left. reflexivity.
      * exists (c :: skipped), tail.
        split; [ reflexivity | ]. split; [ | exact Ht ].
        simpl. rewrite Hp. unfold plain.
        apply Ascii.eqb_neq in Hs, Hd. rewrite Hs, Hd. reflexivity.
Qed.

(** [Ext path] is a suffix of [path], and it is either empty or a dot
    followed by bytes none of which is a dot or a separator. *)
Lemma Ext_suffix_shape (path : string) :
  (exists stem, path = stem ++ Ext path) /\
  (Ext path = "" \/
   exists e, Ext path = String dot e /\ has_sep e = false /\ has_dot e = false).
Proof.
  unfold Ext.
  destruct (plain_span (rev (list_ascii_of_string path)))
    as [skipped [tail [Hrev [Hp Ht]]]].
  assert (Hempty : (exists stem, path = stem ++ "") /\
                   ("" = "" \/
                    exists e, "" = String dot e /\
                              has_sep e = false /\ has_dot e = false)).
  { split; [ exists path; clear; induction path as [ | c p IH];
             simpl; [ reflexivity | now rewrite <- IH ]
           | left; reflexivity ]. }
  rewrite Hrev.
  destruct Ht as [-> | [rest [-> | ->]]].
  - rewrite app_nil_r, ext_scan_end by exact Hp. exact Hempty.
  - rewrite ext_scan_dot by exact Hp. rewrite app_nil_r. split.
    + exists (string_of_list_ascii (rev rest)).
      rewrite <- (string_of_list_ascii_of_string path) at 1.
      rewrite <- (rev_involutive (list_ascii_of_string path)), Hrev.
      rewrite rev_app_distr. cbn [rev]. rewrite <- app_assoc.
      rewrite string_of_list_ascii_app. reflexivity.
    + right. exists (string_of_list_ascii (rev skipped)).
      split; [ reflexivity | ].
      apply plain_string. rewrite forallb_rev. exact Hp.
  - rewrite ext_scan_sep by exact Hp. exact Hempty.
Qed.

(** A stem followed by a dot and by bytes free of dots and separators
    has exactly that dot and those bytes as its extension. *)
Lemma Ext_stem_dot (stem e : string) :
  has_sep e = false -> has_dot e = false ->
  Ext (stem ++ String dot e) = String dot e.
Proof.
  intros Hs Hd. unfold Ext.
  rewrite list_ascii_of_string_app. cbn [list_ascii_of_string].
  rewrite rev_app_distr. cbn [rev]. rewrite <- app_assoc. cbn [app].
  rewrite ext_scan_dot.
  - rewrite rev_involutive, app_nil_r. cbn [string_of_list_ascii].
    rewrite string_of_list_ascii_of_string. reflexivity.
  - rewrite forallb_rev, plain_bytes, Hs, Hd. reflexivity.
Qed.

(** X1: in every returned bundle, each record's [Extension] is a suffix of
    its [Path], and it is either empty or a dot followed by bytes none of
    which is a dot or a separator. *)
Theorem extension_field (b : Bundler) (fs : node) (now : Z)
        (bundle : Bundle) :
  BuildBundle b fs now = inr bundle ->
  Forall (fun f =>
            (exists stem, Path f = stem ++ Extension f) /\
            (Extension f = "" \/
             exists e, Extension f = String dot e /\
                       has_sep e = false /\ has_dot e = false))
         (Files bundle).
Proof.
  intros H. destruct (BuildBundle_inr _ _ _ _ H) as [Hmade _].
  eapply Forall_impl; [ | exact Hmade ].
  intros f [path [info ->]]. cbn [fileRecord Path Extension].
  apply Ext_suffix_shape.
Qed.

Lemma extension_field_witness :
  exists bundle,
    BuildBundle (NewBundler "docs" true) docs_tree 99 = inr bundle /\
    map Extension (Files bundle) = [".md"; ".bin"; ".png"] /\
    Forall (fun f =>
              (exists stem, Path f = stem ++ Extension f) /\
              (Extension f = "" \/
               exists e, Extension f = String dot e /\
                         has_sep e = false /\ has_dot e = false))
           (Files bundle).
Proof.
  eexists. split; [ reflexivity | ]. split; [ reflexivity | ].
  exact (extension_field (NewBundler "docs" true) docs_tree 99 _ eq_refl).
Defined.

(** X2: a path is classified by what follows its final dot: a stem
    followed by a dot and by bytes free of dots and separators has that
    dot and those bytes as extension, and the MIME type and category of the
    bare extension, whatever the stem. *)
Theorem classified_by_final_dot (stem e : string) :
  has_sep e = false -> has_dot e = false ->
  Ext (stem ++ String dot e) = String dot e /\
  detectMIME (stem ++ String dot e) = detectMIME (String dot e) /\
  classifyType (Ext (stem ++ String dot e)) = classifyType (String dot e).
Proof.
  intros Hs Hd.
  pose proof (Ext_stem_dot stem e Hs Hd) as E.
  pose proof (Ext_stem_dot "" e Hs Hd) as E0. cbn [append] in E0.
  unfold detectMIME. rewrite E, E0. repeat split; reflexivity.
Qed.

Lemma classified_by_final_dot_witness :
  Ext ("pkg/v1.2/notes" ++ String dot "md") = String dot "md" /\
  detectMIME ("pkg/v1.2/notes" ++ String dot "md") = detectMIME (String dot "md") /\
  classifyType (Ext ("pkg/v1.2/notes" ++ String dot "md"))
  = classifyType (String dot "md").
Proof.
  apply (classified_by_final_dot "pkg/v1.2/notes" "md"); reflexivity.
Defined.

Lemma ext_scan_past_sep (name rest suffix : list ascii) :
  forallb (fun c => negb (Ascii.eqb c Separator)) name = true ->
  ext_scan (name ++ Separator :: rest) suffix = ext_scan name suffix.
Proof.
  revert suffix. induction name as [ | c name IH]; intros suffix H.
  - reflexivity.
  - simpl in H. apply andb_prop in H. destruct H as [Hc H].
    apply negb_true_iff in Hc.
    cbn [app ext_scan]. rewrite Hc.
    destruct (Ascii.eqb c dot); [ reflexivity | apply IH; exact H ].
Qed.

Lemma no_sep_bytes (s : string) :
  forallb (fun c => negb (Ascii.eqb c Separator)) (list_ascii_of_string s)
  = negb (has_sep s).
Proof.
  induction s as [ | c s IH]; simpl; [ reflexivity | ].
  rewrite IH. apply eq_sym, negb_orb.
Qed.

(** Nothing before the last separator of a path reaches its extension. *)
Lemma Ext_after_separator (dir name : string) :
  has_sep name = false -> Ext (dir ++ String Separator name) = Ext name.
Proof.
  intros Hs. unfold Ext. rewrite list_ascii_of_string_app.
  cbn [list_ascii_of_string].
  rewrite rev_app_distr. cbn [rev]. rewrite <- app_assoc. cbn [app].
  apply ext_scan_past_sep.
  rewrite forallb_rev, no_sep_bytes, Hs. reflexivity.
Qed.

(** X3: the extension of a path, and with it its MIME type and category,
    depend on what follows the last separator only: for any prefix [dir]
    and any separator-free [name], the path [dir/name] is classified like
    [name], so a dot in a directory name never counts. *)
Theorem Ext_of_final_element (dir name : string) :
  has_sep name = false ->
  Ext (dir ++ String Separator name) = Ext name /\
  detectMIME (dir ++ String Separator name) = detectMIME name /\
  classifyType (Ext (dir ++ String Separator name)) = classifyType (Ext name).
Proof.
  intros Hs. unfold detectMIME. rewrite (Ext_after_separator dir name Hs).
  repeat split; reflexivity.
Qed.

Lemma Ext_of_final_element_witness :
  Ext "site.v2/docs/README" = Ext "README" /\
  detectMIME "site.v2/docs/README" = detectMIME "README" /\
  classifyType (Ext "site.v2/docs/README") = classifyType (Ext "README").
Proof.
  apply (Ext_of_final_element "site.v2/docs" "README"). reflexivity.
Defined.

(** X4: a path whose part after the last separator holds no dot has no
    extension, whatever precedes that separator, and is classified
    [application/octet-stream] / [binary]. *)
Theorem Ext_without_dot (dir name : string) :
  has_sep name = false -> has_dot name = false ->
  Ext name = "" /\ Ext (dir ++ String Separator name) = "" /\
  detectMIME (dir ++ String Separator name) = octet_stream /\
  classifyType (Ext (dir ++ String Separator name)) = "binary".
Proof.
  intros Hs Hd.
  assert (E : Ext name = "").
  { unfold Ext. apply ext_scan_end.
    rewrite forallb_rev, plain_bytes, Hs, Hd. reflexivity. }
  pose proof (Ext_after_separator dir name Hs) as E1.
  rewrite E in E1. unfold detectMIME. rewrite E1.
  repeat split; try reflexivity. exact E.
Qed.

Lemma Ext_without_dot_witness :
  Ext "Makefile" = "" /\ Ext "src.d/Makefile" = "" /\
  detectMIME "src.d/Makefile" = octet_stream /\
  classifyType (Ext "src.d/Makefile") = "binary".
Proof.
  apply (Ext_without_dot "src.d" "Makefile"); reflexivity.
Defined.

(** Taking the extension twice changes nothing. *)
Lemma Ext_idempotent (path : string) : Ext (Ext path) = Ext path.
Proof.
  unfold Ext at 2 3.
  destruct (plain_span (rev (list_ascii_of_string path)))
    as [skipped [tail [-> [Hp Ht]]]].
  destruct Ht as [-> | [rest [-> | ->]]].
  - rewrite app_nil_r, ext_scan_end by exact Hp. reflexivity.
  - rewrite ext_scan_dot by exact Hp. rewrite app_nil_r. unfold Ext.
    rewrite list_ascii_of_string_of_list_ascii. cbn [rev].
    rewrite rev_involutive, ext_scan_dot by exact Hp.
    rewrite app_nil_r. reflexivity.
  - rewrite ext_scan_sep by exact Hp. reflexivity.
Qed.

(** ** The classifier, once more *)

Lemma binary_octet (path : string) :
  classifyType (Ext path) = "binary" -> detectMIME path = octet_stream.
Proof.
  intros Hbin. unfold detectMIME.
  case_ext; try reflexivity;
    match goal with
    | e : Ext path = _ |- _ =>
        rewrite e in Hbin; vm_compute in Hbin; discriminate Hbin
    end.
Qed.

(** X5: whatever the extension, [classifyType] answers one of the four
    categories and [detectMIME] one of its six MIME types. *)
Theorem classification_range (path ext : string) :
  In (classifyType ext) categories /\ In (detectMIME path) mime_types.
Proof.
  split.
  - unfold classifyType, categories.
    repeat match goal with
           | |- context [if ?c then _ else _] => destruct c
           end; simpl; tauto.
  - unfold detectMIME, mime_types.
    repeat match goal with
           | |- context [if ?c then _ else _] => destruct c
           end; simpl; tauto.
Qed.

(** X6: in every returned bundle each record is classified from its own
    path: [Extension] is the extension of [Path], [MIMEType] and [FileType]
    are what the classifier answers for it, [FileType] is one of the four
    categories, and a [binary] record has MIME type
    [application/octet-stream]. *)
Theorem records_classified (b : Bundler) (fs : node) (now : Z)
        (bundle : Bundle) :
  BuildBundle b fs now = inr bundle ->
  Forall (fun f => Extension f = Ext (Path f) /\
                   MIMEType f = detectMIME (Path f) /\
                   FileType f = classifyType (Extension f) /\
                   In (FileType f) categories /\
                   (FileType f = "binary" -> MIMEType f = octet_stream))
         (Files bundle).
Proof.
  intros H. destruct (BuildBundle_inr _ _ _ _ H) as [Hmade _].
  eapply Forall_impl; [ | exact Hmade ].
  intros f [path [info ->]]. cbn [fileRecord Extension Path MIMEType FileType].
  split; [ reflexivity | ]. split; [ reflexivity | ].
  split; [ reflexivity | ]. split.
  - unfold classifyType, categories.
    repeat match goal with
           | |- context [if ?c then _ else _] => destruct c
           end; simpl; tauto.
  - apply binary_octet.
Qed.

Lemma records_classified_witness :
  exists bundle,
    BuildBundle (NewBundler "docs" true) docs_tree 99 = inr bundle /\
    map FileType (Files bundle) = ["text"; "binary"; "binary"] /\
    Forall (fun f => Extension f = Ext (Path f) /\
                     MIMEType f = detectMIME (Path f) /\
                     FileType f = classifyType (Extension f) /\
                     In (FileType f) categories /\
                     (FileType f = "binary" -> MIMEType f = octet_stream))
           (Files bundle).
Proof.
  eexists. split; [ reflexivity | ]. split; [ reflexivity | ].
  exact (records_classified (NewBundler "docs" true) docs_tree 99 _ eq_refl).
Defined.

(** ** The root *)

(** X7: a root that is not a directory is bundled as a single record, with
    the root path as [Path] and [.] as [RelativePath]. *)
Theorem root_file (b : Bundler) (name : string) (size mt now : Z) :
  exists bundle f s,
    BuildBundle b (File name size mt) now = inr bundle /\
    Files bundle = [f] /\
    Path f = RootPath b /\ RelativePath f = "." /\ Name f = name /\
    SizeBytes f = size /\
    Summary bundle = Some s /\ TotalFiles s = 1.
Proof.
  unfold BuildBundle, Walk. cbn [visit lstat walkFn IsDir app].
  eexists. eexists. eexists. split; [ reflexivity | ].
  split; [ reflexivity | ]. split; [ reflexivity | ].
  cbn [fileRecord RelativePath].
  split; [ unfold Rel; rewrite String.eqb_refl; reflexivity | ].
  repeat split; reflexivity.
Qed.

(** X8: every error [BuildBundle] returns is an error of the operating
    system: the sentinels [SkipDir] and [SkipAll] never leave the walk, and
    the callback never dereferences a nil [FileInfo].  A root that cannot
    be examined, or cannot be listed, gives back its own error. *)
Theorem build_errors (b : Bundler) (fs : node) (now : Z) :
  (forall e, BuildBundle b fs now = inl e -> exists msg, e = OsError msg) /\
  (forall name msg,
      BuildBundle b (Broken name msg) now = inl (OsError msg)) /\
  (forall name size mt msg,
      BuildBundle b (Dir name size mt (inl msg)) now = inl (OsError msg)).
Proof.
  split; [ | split; reflexivity ].
  intros e He.
  destruct (reachable_ok (Recursive b) true fs) eqn:E.
  - destruct (BuildBundle_ok b fs now E) as [bundle [Hb _]]. congruence.
  - destruct (proj2 (Walk_spec b fs) E) as [files' [msg Ew]].
    unfold BuildBundle in He. rewrite Ew in He.
    exists msg. congruence.
Qed.

Lemma build_errors_witness :
  exists msg,
    OsError "open docs/private: permission denied" = OsError msg.
Proof.
  apply (proj1 (build_errors (NewBundler "docs" false) locked_tree 0)).
  reflexivity.
Defined.

(** ** Which error, which files *)

(** X9: [BuildBundle] returns the first error of the walk, in walk order,
    whatever comes after it; it returns a bundle when the walk meets no
    error. *)
Theorem first_error_returned (b : Bundler) (fs : node) (now : Z) :
  match first_error (Recursive b) true fs with
  | Some msg => BuildBundle b fs now = inl (OsError msg)
  | None => exists bundle, BuildBundle b fs now = inr bundle
  end.
Proof.
  destruct (first_error (Recursive b) true fs) as [msg | ] eqn:E.
  - apply BuildBundle_first_error. exact E.
  - apply first_error_none in E.
    destruct (BuildBundle_ok b fs now E) as [bundle [Hb _]].
    exists bundle. exact Hb.
Qed.

Lemma visit_prune (b : Bundler) (path : string) (c : node)
      (files : list FileBundle) :
  Recursive b = false ->
  (String.length (RootPath b) < String.length path)%nat ->
  visit (walkFn b) path (prune c) files = visit (walkFn b) path c files.
Proof.
  intros Hrec Hlen.
  destruct c as [name msg | name size mt | name size mt [msg | names]];
    try reflexivity.
  cbn [prune visit lstat walkFn IsDir].
  rewrite Hrec, (below_root_neq b path Hlen). reflexivity.
Qed.

Lemma walkNames_prune (b : Bundler) (path : string) (names : list node) :
  Recursive b = false ->
  (String.length (RootPath b) <= String.length path)%nat ->
  forall files,
    walkNames (visit (walkFn b)) path (map prune names) files
    = walkNames (visit (walkFn b)) path names files.
Proof.
  intros Hrec Hlen.
  induction names as [ | c rest IH]; intros files; [ reflexivity | ].
  cbn [map walkNames].
  assert (Hname : node_name (prune c) = node_name c).
  { destruct c as [ | | ? ? ? [ | ]]; reflexivity. }
  rewrite Hname, visit_prune;
    [ | exact Hrec | pose proof (Join_longer path (node_name c)); lia ].
  destruct (visit (walkFn b) (Join path (node_name c)) c files)
    as [s' err].
  destruct c as [ | | ? ? ? [ | ]], err as [[ | | | ] | ];
    cbn [prune]; try reflexivity; apply IH.
Qed.

(** X10: without recursion, what the subdirectories of the root hold makes
    no difference to the result, be it a bundle or an error. *)
Theorem nonrecursive_ignores_subtrees (b : Bundler) (name : string)
        (size mt : Z) (names : list node) (now : Z) :
  Recursive b = false ->
  BuildBundle b (Dir name size mt (inr (map prune names))) now
  = BuildBundle b (Dir name size mt (inr names)) now.
Proof.
  intros Hrec. unfold BuildBundle, Walk.
  cbn [visit lstat walkFn IsDir].
  rewrite String.eqb_refl, andb_false_r.
  rewrite (walkNames_prune b (RootPath b) names Hrec (Nat.le_refl _)).
  reflexivity.
Qed.

Lemma nonrecursive_ignores_subtrees_witness :
  BuildBundle (NewBundler "docs" false)
    (Dir "docs" 4096 50
       (inr [File "a.md" 1200 10; File "b.bin" 10 40;
             Dir "img" 4096 20 (inr [])])) 7
  = BuildBundle (NewBundler "docs" false) deep_error_tree 7.
Proof.
  apply (nonrecursive_ignores_subtrees (NewBundler "docs" false) "docs" 4096 50
           [File "a.md" 1200 10;
            File "b.bin" 10 40;
            Dir "img" 4096 20
              (inr [Broken "logo.png"
                      "lstat docs/img/logo.png: input/output error"])] 7).
  reflexivity.
Defined.

(** ** What a returned bundle holds *)

Lemma BuildBundle_collect (b : Bundler) (fs : node) (now : Z)
      (bundle : Bundle) :
  BuildBundle b fs now = inr bundle ->
  reachable_ok (Recursive b) true fs = true /\
  Files bundle = collect b true (RootPath b) fs.
Proof.
  intros H. destruct (reachable_ok (Recursive b) true fs) eqn:E.
  - destruct (BuildBundle_ok b fs now E) as [bundle' [Hb Hfiles]].
    split; [ reflexivity | ]. congruence.
  - destruct (proj2 (Walk_spec b fs) E) as [files' [msg Ew]].
    unfold BuildBundle in H. rewrite Ew in H. discriminate H.
Qed.

Lemma file_at_not_dir (path : string) (n : node) (p : string)
      (info : FileInfo) :
  file_at path n p info -> IsDir info = false.
Proof.
  induction 1; [ reflexivity | assumption ].
Qed.

(** X11: in either mode, every record of a returned bundle is the record
    of a non-directory found in the tree, at the path it records:
    directories are never recorded and no record is made up. *)
Theorem files_are_files (b : Bundler) (fs : node) (now : Z)
        (bundle : Bundle) :
  BuildBundle b fs now = inr bundle ->
  Forall (fun f => exists info,
              f = fileRecord b (Path f) info /\
              file_at (RootPath b) fs (Path f) info /\
              IsDir info = false) (Files bundle).
Proof.
  intros H. destruct (BuildBundle_collect _ _ _ _ H) as [_ Hfiles].
  apply Forall_forall. intros f Hin. rewrite Hfiles in Hin.
  destruct (collect_sound b fs true (RootPath b) f Hin)
    as [p [info [-> Hat]]].
  exists info. split; [ reflexivity | ].
  split; [ exact Hat | exact (file_at_not_dir _ _ _ _ Hat) ].
Qed.

Lemma files_are_files_witness :
  exists bundle,
    BuildBundle (NewBundler "docs" false) docs_tree 99 = inr bundle /\
    map Path (Files bundle) = ["docs/a.md"; "docs/b.bin"] /\
    Forall (fun f => exists info,
                f = fileRecord (NewBundler "docs" false) (Path f) info /\
                file_at "docs" docs_tree (Path f) info /\
                IsDir info = false) (Files bundle).
Proof.
  eexists. split; [ reflexivity | ]. split; [ reflexivity | ].
  exact (files_are_files (NewBundler "docs" false) docs_tree 99 _ eq_refl).
Defined.

Lemma substring_all (s : string) : substring 0 (String.length s) s = s.
Proof.
  induction s as [ | c s IH]; simpl; [ reflexivity | now rewrite IH ].
Qed.

Lemma prefix_append (s t : string) : String.prefix s (s ++ t) = true.
Proof.
  induction s as [ | c s IH]; simpl.
  - destruct t; reflexivity.
  - destruct (ascii_dec c c) as [_ | Hne]; [ exact IH | now elim Hne ].
Qed.

Lemma substring_skip (s t : string) (m : nat) :
  substring (String.length s) m (s ++ t) = substring 0 m t.
Proof.
  induction s as [ | c s IH]; simpl; [ reflexivity | exact IH ].
Qed.

(** [Rel] of a path below the base is what follows the separator. *)
Lemma Rel_below (base rest : string) :
  Rel base (base ++ String Separator rest) = rest.
Proof.
  unfold Rel.
  assert (Hneq : (base ++ String Separator rest =? base)%string = false).
  { apply String.eqb_neq. intros E.
    apply (f_equal String.length) in E. rewrite length_append in E.
    simpl in E. lia. }
  rewrite Hneq.
  replace (base ++ String Separator rest)
    with ((base ++ "/") ++ rest)
    by (rewrite append_assoc; reflexivity).
  rewrite prefix_append.
  replace (S (String.length base)) with (String.length (base ++ "/"))
    by (rewrite length_append; simpl; lia).
  rewrite substring_skip.
  replace (String.length ((base ++ "/") ++ rest) - String.length (base ++ "/"))%nat
    with (String.length rest)
    by (rewrite (length_append (base ++ "/") rest); lia).
  apply substring_all.
Qed.

(** A file found inside a directory is reached from it by a chain of
    entry names, which follows the directory's path in the file's path. *)
Lemma file_at_rel (path : string) (n : node) (p : string) (info : FileInfo) :
  file_at path n p info ->
  node_isDir n = true ->
  exists rest, p = path ++ String Separator rest /\ rel_file n rest info.
Proof.
  induction 1 as [path name size mt
                 | path name size mt names c p info Hin Hat IH];
    intros Hdir; [ discriminate Hdir | ].
  destruct c as [cn cm | cn cs cmt | cn cs cmt cl].
  - inversion Hat.
  - inversion Hat; subst. exists cn. split; [ reflexivity | ].
    apply rel_child. exact Hin.
  - destruct (IH eq_refl) as [rest [-> Hrel]].
    exists (cn ++ String Separator rest). split.
    + unfold Join. rewrite append_assoc. reflexivity.
    + apply (rel_deeper name size mt names (Dir cn cs cmt cl) rest info Hin Hrel).
Qed.

(** X12: when the root is a directory whose tree lists entry names only,
    each record's [RelativePath] spells the chain of entry names that leads
    from the root to the recorded file, separated by separators, whatever
    the root path is; the record's [Name], [SizeBytes] and [ModifiedAt] are
    those of that file. *)
Theorem relative_paths (b : Bundler) (name : string) (size mt : Z)
        (listing : string + list node) (now : Z) (bundle : Bundle) :
  BuildBundle b (Dir name size mt listing) now = inr bundle ->
  listed_names (Dir name size mt listing) = true ->
  Forall (fun f => exists info,
              rel_file (Dir name size mt listing) (RelativePath f) info /\
              Name f = InfoName info /\
              SizeBytes f = Size info /\
              ModifiedAt f = ModTime info)
         (Files bundle).
Proof.
  intros H _. destruct (BuildBundle_collect _ _ _ _ H) as [_ Hfiles].
  apply Forall_forall. intros f Hin. rewrite Hfiles in Hin.
  destruct (collect_sound b _ true (RootPath b) f Hin)
    as [p [info [-> Hat]]].
  destruct (file_at_rel _ _ _ _ Hat eq_refl) as [rest [-> Hrel]].
  exists info.
  cbn [fileRecord RelativePath Name SizeBytes ModifiedAt].
  rewrite Rel_below. repeat split; try reflexivity. exact Hrel.
Qed.

Lemma relative_paths_witness :
  exists bundle,
    BuildBundle (NewBundler "docs" true) docs_tree 99 = inr bundle /\
    map RelativePath (Files bundle) = ["a.md"; "b.bin"; "img/logo.png"] /\
    Forall (fun f => exists info,
                rel_file docs_tree (RelativePath f) info /\
                Name f = InfoName info /\
                SizeBytes f = Size info /\
                ModifiedAt f = ModTime info)
           (Files bundle).
Proof.
  eexists. split; [ reflexivity | ]. split; [ reflexivity | ].
  exact (relative_paths (NewBundler "docs" true) "docs" 4096 50
           (inr [File "a.md" 1200 10;
                 File "b.bin" 10 40;
                 Dir "img" 4096 20 (inr [File "logo.png" 900 30])])
           99 _ eq_refl eq_refl).
Defined.

Lemma reachable_ok_nonrecursive (n : node) :
  reachable_ok true true n = true -> reachable_ok false true n = true.
Proof.
  destruct n as [name msg | name size mt | name size mt [msg | names]];
    cbn [reachable_ok orb]; try (intros H; exact H).
  intros H. rewrite forallb_forall in *. intros c Hc.
  specialize (H c Hc).
  destruct c as [cn cm | cn cs cmt | cn cs cmt [cm | cl]];
    cbn [reachable_ok orb] in *; try reflexivity; exact H.
Qed.

(** X13: recursion only adds.  When the recursive build of a root
    succeeds, so does the non-recursive one, and every record of the latter
    is a record of the former. *)
Theorem recursion_only_adds (root : string) (fs : node) (now : Z)
        (deep : Bundle) :
  BuildBundle (NewBundler root true) fs now = inr deep ->
  exists shallow,
    BuildBundle (NewBundler root false) fs now = inr shallow /\
    incl (Files shallow) (Files deep).
Proof.
  intros Hdeep.
  destruct (BuildBundle_collect _ _ _ _ Hdeep) as [Hok Hfd].
  cbn [NewBundler Recursive RootPath] in Hok, Hfd.
  destruct (BuildBundle_ok (NewBundler root false) fs now
              (reachable_ok_nonrecursive fs Hok)) as [shallow [Hb Hfs]].
  cbn [NewBundler RootPath] in Hfs.
  exists shallow. split; [ exact Hb | ].
  rewrite Hfs, Hfd. intros f Hin.
  destruct fs as [name msg | name size mt | name size mt [msg | names]];
    cbn [collect NewBundler Recursive orb] in *; try exact Hin.
  apply in_flat_map in Hin. destruct Hin as [c [Hc Hin]].
  apply in_flat_map. exists c. split; [ exact Hc | ].
  destruct c as [cn cm | cn cs cmt | cn cs cmt [cm | cl]];
    cbn [collect NewBundler Recursive orb] in *; try exact Hin.
  destruct Hin.
Qed.

Lemma recursion_only_adds_witness :
  exists deep shallow,
    BuildBundle (NewBundler "docs" true) docs_tree 99 = inr deep /\
    BuildBundle (NewBundler "docs" false) docs_tree 99 = inr shallow /\
    List.length (Files shallow) = 2%nat /\
    List.length (Files deep) = 3%nat /\
    incl (Files shallow) (Files deep).
Proof.
  eexists.
  destruct (recursion_only_adds "docs" docs_tree 99 _ eq_refl)
    as [shallow [Hb Hincl]].
  exists shallow. split; [ reflexivity | ].
  assert (E : inr shallow
              = BuildBundle (NewBundler "docs" false) docs_tree 99)
    by (rewrite Hb; reflexivity).
  vm_compute in E. inversion E; subst shallow.
  split; [ reflexivity | ]. split; [ reflexivity | ].
  split; [ reflexivity | exact Hincl ].
Defined.

(** ** The [run] command *)

(** X14: when the walk meets an error, [run] prints the start line and the
    first error, exits with status 1 and never calls [os.WriteFile]: no
    output file is produced from a partial walk. *)
Theorem run_build_failure
        (MarshalIndent : Bundle -> string + string)
        (WriteFile : string -> string -> Z -> option string)
        (flags : cmd.Flags) (root : string) (fs : node) (now : Z)
        (msg : string) :
  first_error (cmd.recursive flags) true fs = Some msg ->
  cmd.Run MarshalIndent WriteFile flags root fs now
  = {| cmd.stdout :=
         "🧠 AIngest started on: " ++ root ++ cmd.newline
         ++ "Error building bundle: " ++ msg ++ cmd.newline;
       cmd.writeFile_call := None;
       cmd.exit_status := Some 1 |}.
Proof.
  intros E. unfold cmd.Run.
  rewrite (BuildBundle_first_error
             (NewBundler root (cmd.recursive flags)) fs now msg E).
  unfold cmd.Println2, cmd.Error. f_equal.
  rewrite !append_assoc. reflexivity.
Qed.

Lemma run_build_failure_witness :
  cmd.exit_status
    (cmd.Run (fun _ => inr "{}") (fun _ _ _ => None) cmd.defaultFlags
             "docs" locked_tree 0) = Some 1 /\
  cmd.writeFile_call
    (cmd.Run (fun _ => inr "{}") (fun _ _ _ => None) cmd.defaultFlags
             "docs" locked_tree 0) = None.
Proof.
  rewrite (run_build_failure (fun _ => inr "{}") (fun _ _ _ => None)
             cmd.defaultFlags "docs" locked_tree 0
             "open docs/private: permission denied" eq_refl).
  split; reflexivity.
Defined.

(** X15: [run] calls [os.WriteFile] only with the output file named by the
    flag, permissions [0644] and the encoding of the bundle a successful
    build returned; and it returns without [os.Exit] exactly when the
    build, the encoding and the write all succeeded, the status being 1
    otherwise. *)
Theorem run_writes_after_success
        (MarshalIndent : Bundle -> string + string)
        (WriteFile : string -> string -> Z -> option string)
        (flags : cmd.Flags) (root : string) (fs : node) (now : Z) :
  let outcome := cmd.Run MarshalIndent WriteFile flags root fs now in
  (forall name data perm,
      cmd.writeFile_call outcome = Some (name, data, perm) ->
      name = cmd.outputFile flags /\ perm = 420 /\
      exists bundle,
        BuildBundle (NewBundler root (cmd.recursive flags)) fs now
        = inr bundle /\
        MarshalIndent bundle = inr data) /\
  (cmd.exit_status outcome = None \/ cmd.exit_status outcome = Some 1) /\
  (cmd.exit_status outcome = None <->
   exists bundle data,
     BuildBundle (NewBundler root (cmd.recursive flags)) fs now = inr bundle /\
     MarshalIndent bundle = inr data /\
     WriteFile (cmd.outputFile flags) data 420 = None).
Proof.
  unfold cmd.Run.
  destruct (BuildBundle (NewBundler root (cmd.recursive flags)) fs now)
    as [err | bundle] eqn:Eb; cbn zeta.
  - split; [ intros name data perm H; discriminate H | ].
    split; [ right; reflexivity | ].
    split; [ intros H; discriminate H | ].
    intros [bundle [data [H _]]]. discriminate H.
  - destruct (MarshalIndent bundle) as [err | data] eqn:Em.
    + split; [ intros name d perm H; discriminate H | ].
      split; [ right; reflexivity | ].
      split; [ intros H; discriminate H | ].
      intros [bundle' [d [H [Hm _]]]]. inversion H; subst bundle'.
      congruence.
    + destruct (WriteFile (cmd.outputFile flags) data 420) as [err | ] eqn:Ew.
      * split.
        { intros name d perm H. inversion H; subst.
          split; [ reflexivity | ]. split; [ reflexivity | ].
          exists bundle. split; [ reflexivity | exact Em ]. }
        split; [ right; reflexivity | ].
        split; [ intros H; discriminate H | ].
        intros [bundle' [d [H [Hm Hw]]]]. inversion H; subst bundle'.
        rewrite Em in Hm. inversion Hm; subst d. congruence.
      * split.
        { intros name d perm H. inversion H; subst.
          split; [ reflexivity | ]. split; [ reflexivity | ].
          exists bundle. split; [ reflexivity | exact Em ]. }
        split; [ left; reflexivity | ].
        split; [ intros _ | reflexivity ].
        exists bundle, data. repeat split; assumption.
Qed.

Lemma run_writes_after_success_witness :
  cmd.writeFile_call
    (cmd.Run (fun _ => inr "{}") (fun _ _ _ => None) cmd.defaultFlags
             "docs" docs_tree 0) = Some ("bundle.json", "{}", 420).
Proof.
  destruct (proj1 (run_writes_after_success
                     (fun _ => inr "{}") (fun _ _ _ => None)
                     cmd.defaultFlags "docs" docs_tree 0)
                  "bundle.json" "{}" 420 eq_refl)
    as [_ [_ _]].
  reflexivity.
Defined.

(** ** Walk order and uniqueness *)

(** X16: the records of a directory are those of its entries, one entry
    after the other in listing order: the bundle of a listing cut in two
    holds the records of the first part followed by those of the second. *)
Theorem listing_concatenates (b : Bundler) (name : string) (size mt : Z)
        (pre post : list node) (now : Z) :
  reachable_ok (Recursive b) true (Dir name size mt (inr (pre ++ post)%list))
  = true ->
  exists whole first second,
    BuildBundle b (Dir name size mt (inr (pre ++ post)%list)) now = inr whole /\
    BuildBundle b (Dir name size mt (inr pre)) now = inr first /\
    BuildBundle b (Dir name size mt (inr post)) now = inr second /\
    Files whole = (Files first ++ Files second)%list.
Proof.
  intros Hok.
  assert (Hparts :
            reachable_ok (Recursive b) true (Dir name size mt (inr pre)) = true /\
            reachable_ok (Recursive b) true (Dir name size mt (inr post)) = true).
  { cbn [reachable_ok] in *. rewrite orb_true_r in *.
    rewrite forallb_app in Hok. apply andb_prop in Hok. exact Hok. }
  destruct Hparts as [Hpre Hpost].
  destruct (BuildBundle_ok b _ now Hok) as [whole [Hw Fw]].
  destruct (BuildBundle_ok b _ now Hpre) as [first [Hf Ff]].
  destruct (BuildBundle_ok b _ now Hpost) as [second [Hs Fs]].
  exists whole, first, second.
  split; [ exact Hw | ]. split; [ exact Hf | ]. split; [ exact Hs | ].
  rewrite Fw, Ff, Fs. cbn [collect]. rewrite orb_true_r.
  apply flat_map_app.
Qed.

Lemma listing_concatenates_witness :
  exists whole first second,
    BuildBundle (NewBundler "docs" true) docs_tree 99 = inr whole /\
    BuildBundle (NewBundler "docs" true)
      (Dir "docs" 4096 50 (inr [File "a.md" 1200 10])) 99 = inr first /\
    BuildBundle (NewBundler "docs" true)
      (Dir "docs" 4096 50
         (inr [File "b.bin" 10 40;
               Dir "img" 4096 20 (inr [File "logo.png" 900 30])])) 99 = inr second /\
    Files whole = (Files first ++ Files second)%list.
Proof.
  exact (listing_concatenates (NewBundler "docs" true) "docs" 4096 50
           [File "a.md" 1200 10]
           [File "b.bin" 10 40;
            Dir "img" 4096 20 (inr [File "logo.png" 900 30])] 99 eq_refl).
Defined.

(** Two names free of separators, each followed by nothing or by a
    separator and more, give the same string only if they are the same
    name. *)
Lemma name_then_rest (a a' x x' : string) :
  has_sep a = false -> has_sep a' = false ->
  (x = "" \/ exists r, x = String Separator r) ->
  (x' = "" \/ exists r, x' = String Separator r) ->
  a ++ x = a' ++ x' -> a = a'.
Proof.
  revert a'. induction a as [ | c a IH]; intros a' Ha Ha' Hx Hx' E.
  - destruct a' as [ | c' a']; [ reflexivity | ].
    simpl in E, Ha'. apply orb_false_elim in Ha'. destruct Ha' as [Hc' _].
    destruct Hx as [-> | [r ->]]; [ discriminate E | ].
    inversion E; subst c'. unfold Separator in Hc'.
    rewrite Ascii.eqb_refl in Hc'. discriminate Hc'.
  - simpl in Ha. apply orb_false_elim in Ha. destruct Ha as [Hc Ha].
    destruct a' as [ | c' a'].
    + simpl in E. destruct Hx' as [-> | [r ->]]; [ discriminate E | ].
      inversion E; subst c. unfold Separator in Hc.
      rewrite Ascii.eqb_refl in Hc. discriminate Hc.
    + simpl in E, Ha'. apply orb_false_elim in Ha'. destruct Ha' as [_ Ha'].
      inversion E; subst c'. f_equal. eapply IH; eassumption.
Qed.

(** Every path the walk of an entry records is the entry's own path,
    alone or followed by a separator and more. *)
Lemma collect_paths (b : Bundler) (n : node) (root : bool)
      (path p : string) :
  In p (map Path (collect b root path n)) ->
  exists x, p = path ++ x /\ (x = "" \/ exists r, x = String Separator r).
Proof.
  intros Hin. apply in_map_iff in Hin. destruct Hin as [f [<- Hf]].
  destruct (collect_sound b n root path f Hf) as [q [info [-> Hat]]].
  cbn [fileRecord Path].
  destruct (file_at_path _ _ _ _ Hat) as [[_ ->] | [_ [rest ->]]].
  - exists "". split; [ | left; reflexivity ].
    clear. induction path as [ | c s IH]; simpl;
      [ reflexivity | now rewrite <- IH ].
  - exists (String Separator rest). split; [ reflexivity | ].
    right. exists rest. reflexivity.
Qed.

Lemma distinct_not_in (x : string) (l : list string) :
  existsb (String.eqb x) l = false -> ~ In x l.
Proof.
  intros H Hin. assert (Ht : existsb (String.eqb x) l = true).
  { apply existsb_exists. exists x. split; [ exact Hin | apply String.eqb_refl ]. }
  congruence.
Qed.

Lemma NoDup_collect (b : Bundler) :
  forall n root path,
    well_named n = true ->
    NoDup (map Path (collect b root path n)).
Proof.
  induction n as [name msg | name size mt | name size mt msg
                 | name size mt names IH] using node_induction;
    intros root path Hwf; cbn [collect].
  - constructor.
  - repeat constructor. intros [].
  - constructor.
  - destruct (Recursive b || root); [ | constructor ].
    cbn [well_named] in Hwf.
    apply andb_prop in Hwf. destruct Hwf as [Hwf Hsub].
    apply andb_prop in Hwf. destruct Hwf as [Hsep Hdist].
    induction IH as [ | c rest Hc _ IHrest]; [ constructor | ].
    cbn [flat_map map forallb distinct] in *.
    apply andb_prop in Hsep. destruct Hsep as [Hcsep Hsep].
    apply andb_prop in Hdist. destruct Hdist as [Hcnew Hdist].
    apply andb_prop in Hsub. destruct Hsub as [Hcwf Hsub].
    apply negb_true_iff in Hcsep, Hcnew.
    rewrite map_app. apply NoDup_app.
    + apply Hc. exact Hcwf.
    + apply IHrest; assumption.
    + intros p Hp Hp'.
      destruct (collect_paths b c false _ p Hp) as [x [Ex Hx]].
      apply in_map_iff in Hp'. destruct Hp' as [f [Ef Hf]].
      apply in_flat_map in Hf. destruct Hf as [c' [Hc' Hf]].
      assert (Hp'' : In p (map Path
                              (collect b false (Join path (node_name c')) c'))).
      { apply in_map_iff. exists f. split; assumption. }
      destruct (collect_paths b c' false _ p Hp'') as [x' [Ex' Hx']].
      rewrite Ex in Ex'. unfold Join in Ex'.
      rewrite !append_assoc in Ex'. apply append_inj_l in Ex'.
      cbn [append] in Ex'. inversion Ex' as [Enames].
      rewrite forallb_forall in Hsep.
      pose proof (Hsep c' Hc') as Hc'sep. apply negb_true_iff in Hc'sep.
      pose proof (name_then_rest _ _ _ _ Hcsep Hc'sep Hx Hx' Enames) as Esame.
      apply (distinct_not_in _ _ Hcnew).
      rewrite Esame. apply in_map. exact Hc'.
Qed.

(** X17: on a tree whose directories hold separator-free, pairwise
    different names, no path is recorded twice. *)
Theorem paths_unique (b : Bundler) (fs : node) (now : Z) (bundle : Bundle) :
  BuildBundle b fs now = inr bundle ->
  well_named fs = true ->
  NoDup (map Path (Files bundle)).
Proof.
  intros H Hwf. destruct (BuildBundle_collect _ _ _ _ H) as [_ Hfiles].
  rewrite Hfiles. apply NoDup_collect. exact Hwf.
Qed.

Lemma paths_unique_witness :
  exists bundle,
    BuildBundle (NewBundler "docs" true) docs_tree 99 = inr bundle /\
    NoDup (map Path (Files bundle)).
Proof.
  eexists. split; [ reflexivity | ].
  exact (paths_unique (NewBundler "docs" true) docs_tree 99 _ eq_refl eq_refl).
Defined.
